(** * Reddit_MatchMaker: the row processor and its collaborators

    A shallow embedding of [src/main.py] and
    [src/immediate_response_script.py].  The two scripts share
    [is_eligible], [generate_code] and [send_dm] verbatim; they differ in
    [setup_sheet] and in the body of [process_responses].  The shared part
    is embedded once, the differing parts in [Module Main] and
    [Module Immediate]. *)

From Stdlib Require Import ZArith Ascii String.
From stdpp Require Import base gmap strings list pretty.

Open Scope string_scope.

(** ** Python string operations

    A Python [str] is modelled by [string].  Whitespace and letter case are
    classified on the ASCII range, which is where every literal of the two
    scripts lives. *)

Definition is_space (c : ascii) : bool :=
  let n := nat_of_ascii c in
  ((9 <=? n)%nat && (n <=? 13)%nat) || ((28 <=? n)%nat && (n <=? 32)%nat).

Definition lower_char (c : ascii) : ascii :=
  let n := nat_of_ascii c in
  if ((65 <=? n)%nat && (n <=? 90)%nat) then ascii_of_nat (n + 32) else c.

(** [str.lower] *)
Fixpoint lower (s : string) : string :=
  match s with
  | EmptyString => EmptyString
  | String c s' => String (lower_char c) (lower s')
  end.

Fixpoint lstrip (s : string) : string :=
  match s with
  | EmptyString => EmptyString
  | String c s' => if is_space c then lstrip s' else s
  end.

Fixpoint rstrip (s : string) : string :=
  match s with
  | EmptyString => EmptyString
  | String c s' =>
      match rstrip s' with
      | EmptyString => if is_space c then EmptyString else String c EmptyString
      | r => String c r
      end
  end.

(** [str.strip] *)
Definition strip (s : string) : string := rstrip (lstrip s).

(** [str.startswith] *)
Fixpoint startswith (s p : string) {struct p} : bool :=
  match p, s with
  | EmptyString, _ => true
  | String a p', String b s' => if Ascii.eqb a b then startswith s' p' else false
  | String _ _, EmptyString => false
  end.

(** [str.split(sep)] for a non-empty separator: the text is scanned from the
    left, every occurrence of [sep] closes the current piece and the scan
    resumes behind it.  [split_go] returns the piece that starts at the
    current position and the pieces after it; [skip] counts the characters
    of a matched separator that are still to be passed over. *)
Fixpoint split_go (sep : string) (skip : nat) (s : string) : string * list string :=
  match s with
  | EmptyString => (EmptyString, [])
  | String c s' =>
      match skip with
      | S k => split_go sep k s'
      | O =>
          if startswith s sep
          then (EmptyString,
                let (piece, pieces) := split_go sep (String.length sep - 1) s' in
                piece :: pieces)
          else let (piece, pieces) := split_go sep 0 s' in (String c piece, pieces)
      end
  end.

Definition split (sep s : string) : list string :=
  let (piece, pieces) := split_go sep 0 s in piece :: pieces.

(** [xs[-1]] on the result of a split (which is never empty) *)
Definition last_piece (xs : list string) : string := List.last xs EmptyString.

(** [list.index]: the 0-based position of the first occurrence *)
Fixpoint index_of (x : string) (xs : list string) : option nat :=
  match xs with
  | [] => None
  | y :: ys => if String.eqb y x then Some 0 else S <$> index_of x ys
  end.

(** [x in xs] for a list of strings *)
Definition str_in (x : string) (xs : list string) : bool :=
  existsb (String.eqb x) xs.

(** the first [n] characters, [s[:n]] *)
Definition take_str (n : nat) (s : string) : string := String.substring 0 n s.

Definition upper_char (c : ascii) : ascii :=
  let n := nat_of_ascii c in
  if ((97 <=? n)%nat && (n <=? 122)%nat) then ascii_of_nat (n - 32) else c.

(** [str.upper] *)
Fixpoint upper (s : string) : string :=
  match s with
  | EmptyString => EmptyString
  | String c s' => String (upper_char c) (upper s')
  end.


(** ** The outside world

    The spreadsheet, the platform, the clock and the random source are
    external collaborators.  What they answer is given by an [Env]; what the
    scripts did to them is recorded in the [World]. *)

(** Python exceptions that occur in the scripts *)
Inductive Exn : Type :=
| APIError (msg : string)       (* gspread: any failed spreadsheet request *)
| KeyError (key : string)
| ValueError (msg : string)
| RuntimeError (msg : string)
| RedditError (msg : string).   (* praw / prawcore: any failed platform request *)

(** [str(e)] *)
Definition exn_str (e : Exn) : string :=
  match e with
  | APIError m | ValueError m | RuntimeError m | RedditError m => m
  | KeyError k => "'" ++ k ++ "'"
  end.

Inductive Res (A : Type) : Type :=
| Ok (a : A)
| Raise (e : Exn).
Arguments Ok {A} a.
Arguments Raise {A} e.

(** Observable effects, in the order in which they happen.  [Generate] marks
    a call of [generate_code]; it is the only event that is not an external
    call. *)
Inductive Event : Type :=
| Lookup (name : string)
| Message (name subject body : string) (delivered : bool)
| Sleep (secs : nat)
| UpdateCell (r c : nat) (v : string)
| AddCols (n : nat)
| UpdateRange (r c : nat) (vals : list string)
| Generate (username code : string)
| Printed (line : string).

Record World : Type := mkWorld {
  grid : gmap (nat * nat) string;  (* sheet cells by 1-based (row, column) *)
  trace : list Event;
  api_calls : nat;                 (* spreadsheet requests made so far *)
  dm_calls : nat;                  (* message requests made so far *)
  clock_reads : nat;
  draws : nat                      (* random draws made so far *)
}.

Record Env : Type := mkEnv {
  api_fault : nat -> option Exn;   (* does the n-th spreadsheet request raise? *)
  account : string -> Res Z;       (* [created_utc] of a redditor, in seconds *)
  dm_fault : nat -> option Exn;    (* does the n-th message request raise? *)
  clock : nat -> Z;                (* n-th clock reading, microseconds, UTC *)
  tz_offset : Z;                   (* local time minus UTC, microseconds *)
  str_datetime : Z -> string;      (* [str] of a [datetime] *)
  sha256_hexdigest : string -> string;
  randbelow : nat -> nat -> nat    (* n-th draw below a bound *)
}.

(** ** State and exceptions *)

Definition M (A : Type) : Type := World -> Res A * World.

Definition ret {A} (a : A) : M A := fun w => (Ok a, w).

Definition bind {A B} (m : M A) (k : A -> M B) : M B := fun w =>
  match m w with
  | (Ok a, w') => k a w'
  | (Raise e, w') => (Raise e, w')
  end.

Definition raise {A} (e : Exn) : M A := fun w => (Raise e, w).

(** [try: m  except Exception as e: h e] *)
Definition try_except {A} (m : M A) (h : Exn -> M A) : M A := fun w =>
  match m w with
  | (Ok a, w') => (Ok a, w')
  | (Raise e, w') => h e w'
  end.

#[global] Instance M_ret : MRet M := @ret.
#[global] Instance M_bind : MBind M := fun A B k m => bind m k.

Definition record (e : Event) (w : World) : World :=
  mkWorld (grid w) (trace w ++ [e])%list (api_calls w) (dm_calls w)
          (clock_reads w) (draws w).

Definition log (e : Event) : M unit := fun w => (Ok tt, record e w).

Definition set_grid (g : gmap (nat * nat) string) (w : World) : World :=
  mkWorld g (trace w) (api_calls w) (dm_calls w) (clock_reads w) (draws w).

Definition tick_api (w : World) : World :=
  mkWorld (grid w) (trace w) (S (api_calls w)) (dm_calls w) (clock_reads w) (draws w).

Definition tick_dm (w : World) : World :=
  mkWorld (grid w) (trace w) (api_calls w) (S (dm_calls w)) (clock_reads w) (draws w).

Definition tick_clock (w : World) : World :=
  mkWorld (grid w) (trace w) (api_calls w) (dm_calls w) (S (clock_reads w)) (draws w).

Definition tick_draw (w : World) : World :=
  mkWorld (grid w) (trace w) (api_calls w) (dm_calls w) (clock_reads w) (S (draws w)).

(** ** Reading the sheet as gspread does *)

Definition nonblank (v : string) : bool :=
  match v with EmptyString => false | _ => true end.

(** the last row, and the last column, that hold a value *)
Definition last_row (g : gmap (nat * nat) string) : nat :=
  map_fold (fun k v acc => if nonblank v then Nat.max k.1 acc else acc) 0 g.

Definition last_col (g : gmap (nat * nat) string) : nat :=
  map_fold (fun k v acc => if nonblank v then Nat.max k.2 acc else acc) 0 g.

Definition last_col_of_row (r : nat) (g : gmap (nat * nat) string) : nat :=
  map_fold (fun k v acc =>
              if nonblank v && (k.1 =? r)%nat then Nat.max k.2 acc else acc) 0 g.

Definition cells_of_row (g : gmap (nat * nat) string) (r n : nat) : list string :=
  map (fun c => default EmptyString (g !! (r, c))) (seq 1 n).

(** [dict(zip(keys, vals))]: a later duplicate key overrides an earlier one *)
Definition dict_zip (keys vals : list string) : gmap string string :=
  foldl (fun d kv => <[kv.1 := kv.2]> d) ∅ (zip keys vals).

(** The records of [get_all_records]: row 1 gives the keys, every later row
    up to the last one in use gives one record.  gspread turns cells that
    look like numbers into numbers; both scripts undo this with [str] and
    such a cell is neither an accepted preference nor a handle, so the model
    keeps the text. *)
Definition records_of (g : gmap (nat * nat) string) : list (gmap string string) :=
  let width := last_col g in
  match map (fun r => cells_of_row g r width) (seq 1 (last_row g)) with
  | [] => []
  | keys :: rows => map (dict_zip keys) rows
  end.

Section Collaborators.

Variable env : Env.

(** One spreadsheet request: it is counted, then it raises or runs. *)
Definition api_call {A} (m : M A) : M A := fun w =>
  match api_fault env (api_calls w) with
  | Some e => (Raise e, tick_api w)
  | None => m (tick_api w)
  end.

(** [sheet.cell(r, c).value]: [None] for a cell without a value *)
Definition cell (r c : nat) : M (option string) :=
  api_call (fun w => (Ok (grid w !! (r, c)), w)).

(** [sheet.update_cell(r, c, v)] *)
Definition update_cell (r c : nat) (v : string) : M unit :=
  api_call (fun w => log (UpdateCell r c v) (set_grid (<[(r, c) := v]> (grid w)) w)).

(** [sheet.row_values(r)]: the row up to its last cell that holds a value *)
Definition row_values (r : nat) : M (list string) :=
  api_call (fun w => (Ok (cells_of_row (grid w) r (last_col_of_row r (grid w))), w)).

(** [sheet.add_cols(n)] *)
Definition add_cols (n : nat) : M unit := api_call (log (AddCols n)).

Fixpoint write_cells (r c : nat) (vals : list string)
  (g : gmap (nat * nat) string) : gmap (nat * nat) string :=
  match vals with
  | [] => g
  | v :: vs => write_cells r (S c) vs (<[(r, c) := v]> g)
  end.

(** [sheet.update(label, [vals])]: one row of values whose first cell is the
    one named by the A1 label *)
Definition update_range (r c : nat) (vals : list string) : M unit :=
  api_call (fun w => log (UpdateRange r c vals) (set_grid (write_cells r c vals (grid w)) w)).

(** [sheet.get_all_records()] *)
Definition get_all_records : M (list (gmap string string)) :=
  api_call (fun w => (Ok (records_of (grid w)), w)).

(** [client.open(SHEET_NAME).sheet1], with the authorisation before it *)
Definition open_sheet : M unit := api_call (ret tt).

(** [reddit.redditor(name).created_utc]: the attribute access fetches the
    account *)
Definition redditor_created_utc (name : string) : M Z := fun w =>
  (account env name, record (Lookup name) w).

(** [reddit.redditor(name).message(subject=..., message=...)] *)
Definition redditor_message (name subject body : string) : M unit := fun w =>
  match dm_fault env (dm_calls w) with
  | Some e => (Raise e, record (Message name subject body false) (tick_dm w))
  | None => (Ok tt, record (Message name subject body true) (tick_dm w))
  end.

(** [datetime.utcnow()] and [datetime.now()], as naive microsecond counts *)
Definition utcnow : M Z := fun w => (Ok (clock env (clock_reads w)), tick_clock w).
Definition now : M Z := fun w =>
  (Ok (clock env (clock_reads w) + tz_offset env)%Z, tick_clock w).

(** [datetime.fromtimestamp(t)]: local naive time of an epoch in seconds *)
Definition fromtimestamp (t : Z) : Z := (t * 1000000 + tz_offset env)%Z.

(** [timedelta.days]: whole days, rounded towards minus infinity *)
Definition days (delta : Z) : Z := (delta / 86400000000)%Z.

(** [time.sleep(secs)] *)
Definition sleep (secs : nat) : M unit := log (Sleep secs).

(** [print(line)] *)
Definition print (line : string) : M unit := log (Printed line).

(** [random.choice(xs)] *)
Definition random_choice (xs : list string) : M string := fun w =>
  (Ok (nth (randbelow env (draws w) (length xs)) xs EmptyString), tick_draw w).

(** ** Configuration shared by the two scripts *)

Definition MIN_ACCOUNT_AGE_DAYS : Z := 90.
Definition MAX_DM_RETRIES : nat := 3.

Definition nl : string := String (ascii_of_nat 10) EmptyString.

Definition HUMOR_dm_messages : list string :=
  [ "Your code survived 3 rounds of load shedding ⚡";
    "Approved by 9/10 street cows of Kathmandu 🐄";
    "Contains pure momo energy - handle with care! 🥟" ].

Definition HUMOR_rejections : list string :=
  [ "Account younger than Nepal's average power cut ⏳";
    "Come back after your account survives TIA WiFi ☕";
    "Age requirement: Survived 5+ internet shutdowns" ].

Definition ACCEPTED_PREFS : list string :=
  [ "Yes, I want to receive a DM with my match's username, code, and the scientific reason why we were paired.";
    "Maybe, but only if my match is cool." ].

Definition SKIP_STATUSES : list string := ["Processed"; "Rejected"; "Opted Out"].

(** [v in SKIP_STATUSES] for the value of a cell ([None] is in no list) *)
Definition status_in (v : option string) (xs : list string) : bool :=
  match v with
  | Some s => str_in s xs
  | None => false
  end.

(** [not v] for the value of a cell: true for [None] and for the empty
    string *)
Definition falsy (v : option string) : bool :=
  match v with
  | None => true
  | Some s => negb (nonblank s)
  end.

(** [col[key]] on the column map *)
Definition col_get (col : gmap string nat) (key : string) : M nat :=
  match col !! key with
  | Some c => ret c
  | None => raise (KeyError key)
  end.

(** the account name of a handle: [username.split('u/')[-1].strip()] *)
Definition handle_name (username : string) : string :=
  strip (last_piece (split "u/" username)).

(** ** Core functions (identical in both scripts) *)

Definition is_eligible (username : string) : M bool :=
  try_except
    (t_now ← utcnow;
     created ← redditor_created_utc (handle_name username);
     let age := (t_now - fromtimestamp created)%Z in
     ret (MIN_ACCOUNT_AGE_DAYS <=? days age)%Z)
    (fun _ => ret false).

Definition generate_code (username : string) : M string :=
  t ← now;
  let code :=
    upper (take_str 8 (sha256_hexdigest env (username ++ str_datetime env t))) in
  log (Generate username code);;
  ret code.

Definition RETRY_SUFFIX : string :=
  nl ++ nl ++ "⚠️ Final attempt! Lose this and you get AutoModerator 🤖".

Definition send_dm (username message : string) (is_retry : bool) : M bool :=
  try_except
    (let subject := if is_retry then "🚨 Code Redelivery!" else "🔐 Your Match Code" in
     let message := if is_retry then message ++ RETRY_SUFFIX else message in
     redditor_message (handle_name username) subject message;;
     sleep 20;;
     ret true)
    (fun e =>
       print ("DM failed for " ++ username ++ ": " ++ exn_str e);;
       ret false).

End Collaborators.

(** ** src/main.py *)

Module Main.

Definition COLUMN_MAP : list (string * string) :=
  [ ("username", "Reddit Username:");
    ("dm_pref", "Do You Accept DM Notifications About Your Match?");
    ("code", "Code");
    ("status", "Status");
    ("dm_status", "DM Status") ].

Section Script.

Variable env : Env.

(** the loop "Find existing columns" *)
Fixpoint find_existing (headers : list string) (items : list (string * string))
  (col_indices : gmap string nat) (new_columns : list string)
  : gmap string nat * list string :=
  match items with
  | [] => (col_indices, new_columns)
  | (key, col_name) :: rest =>
      match index_of col_name headers with
      | Some i => find_existing headers rest (<[key := i + 1]> col_indices) new_columns
      | None => find_existing headers rest col_indices (new_columns ++ [col_name])%list
      end
  end.

(** the loop "Get final indices"; [list.index] raises [ValueError] *)
Fixpoint final_indices (headers : list string) (items : list (string * string))
  (col_indices : gmap string nat) : M (gmap string nat) :=
  match items with
  | [] => ret col_indices
  | (key, col_name) :: rest =>
      match index_of col_name headers with
      | Some i => final_indices headers rest (<[key := i + 1]> col_indices)
      | None => raise (ValueError ("'" ++ col_name ++ "' is not in list"))
      end
  end.

(** The label of the update is [rowcol_to_a1(1, end_col+1)] followed by the
    character 1, for instance F1 followed by 1: it names row 11 of column
    [end_col + 1]. *)
Definition setup_sheet : M (gmap string nat) :=
  raw ← row_values env 1;
  let headers := map strip raw in
  let '(col_indices, new_columns) := find_existing headers COLUMN_MAP ∅ [] in
  headers ← match new_columns with
            | [] => ret headers
            | _ :: _ =>
                add_cols env (length new_columns);;
                let end_col := length headers in
                update_range env 11 (end_col + 1) new_columns;;
                ret (headers ++ new_columns)%list
            end;
  final_indices headers COLUMN_MAP col_indices.

Definition rejection_msg (humor : string) : string :=
  "🚨 Disqualified!" ++ nl ++ nl ++ humor ++ nl ++ nl ++ "Requirements:" ++ nl
  ++ "- Account age ≥ " ++ pretty MIN_ACCOUNT_AGE_DAYS ++ " days".

Definition acceptance_msg (code humor : string) : string :=
  "🎉 Your Match Code: " ++ code ++ nl ++ nl ++ "🔮 How this works:" ++ nl
  ++ "1. Results in 3-5 days" ++ nl ++ "2. Lose code = match with AutoMod" ++ nl
  ++ "3. Valid during outages" ++ nl ++ nl ++ humor.

(** [any(send_dm(reddit, username, message, attempt>0) for attempt in ...)]:
    the generator is consumed until the first true result *)
Fixpoint any_send_dm (username message : string) (attempts : list nat) : M bool :=
  match attempts with
  | [] => ret false
  | attempt :: rest =>
      sent ← send_dm env username message (0 <? attempt)%nat;
      if (sent : bool) then ret true else any_send_dm username message rest
  end.

(** the body of the [try] of one row; [continue] is the end of the body *)
Definition row_body (col : gmap string nat) (idx : nat) (row : gmap string string)
  : M unit :=
  c_status ← col_get col "status";
  current_status ← cell env idx c_status;
  if status_in current_status SKIP_STATUSES then ret tt else
  let username := strip (default EmptyString (row !! "Reddit Username:")) in
  let dm_pref :=
    strip (default EmptyString
             (row !! "Do You Accept DM Notifications About Your Match?")) in
  if negb (str_in dm_pref ACCEPTED_PREFS) then
    c ← col_get col "status";
    update_cell env idx c "Opted Out"
  else if negb (startswith (lower username) "u/") then
    c ← col_get col "status";
    update_cell env idx c "Invalid Format"
  else
    eligible ← is_eligible env username;
    if negb eligible then
      humor ← random_choice env HUMOR_rejections;
      send_dm env username (rejection_msg humor) false;;
      c ← col_get col "status";
      update_cell env idx c "Rejected"
    else
      code ← generate_code env username;
      c_code ← col_get col "code";
      stored ← cell env idx c_code;
      (if falsy stored then
         c ← col_get col "code";
         update_cell env idx c code
       else ret tt);;
      humor ← random_choice env HUMOR_dm_messages;
      let message := acceptance_msg code humor in
      success ← any_send_dm username message (seq 0 MAX_DM_RETRIES);
      c ← col_get col "status";
      update_cell env idx c (if (success : bool) then "Processed" else "Failed");;
      c ← col_get col "dm_status";
      update_cell env idx c (if (success : bool) then "✅ Sent" else "❌ Failed").

(** one iteration of the loop over the records *)
Definition process_row (col : gmap string nat) (idx : nat) (row : gmap string string)
  : M unit :=
  try_except (row_body col idx row)
    (fun e =>
       print ("Error processing row " ++ pretty idx ++ ": " ++ exn_str e);;
       c ← col_get col "status";
       update_cell env idx c "Error").

(** [for idx, row in enumerate(records, start=2)] *)
Fixpoint process_rows (col : gmap string nat) (idx : nat)
  (records : list (gmap string string)) : M unit :=
  match records with
  | [] => ret tt
  | row :: rest => process_row col idx row;; process_rows col (S idx) rest
  end.

Definition process_responses : M unit :=
  t ← now env;
  print (nl ++ "=== Starting processing at " ++ str_datetime env t ++ " ===");;
  try_except
    (open_sheet env;;
     col ← setup_sheet;
     records ← get_all_records env;
     process_rows col 2 records;;
     t ← now env;
     print ("=== Completed processing at " ++ str_datetime env t ++ " ===" ++ nl))
    (fun e => print ("Fatal error: " ++ exn_str e)).

End Script.
End Main.

(** ** src/immediate_response_script.py *)

Module Immediate.

Definition REQUIRED_COLUMNS : list (string * string) :=
  [ ("username", "Reddit Username:");
    ("dm_pref", "Do You Accept DM Notifications About Your Match?");
    ("code", "Code");
    ("status", "Status");
    ("dm_status", "DM Status") ].

(** Python dictionaries of the resolver, in insertion order: setting a key
    that is present replaces its value in place *)
Fixpoint dict_set {V} (k : string) (v : V) (d : list (string * V)) : list (string * V) :=
  match d with
  | [] => [(k, v)]
  | (k', v') :: d' => if String.eqb k' k then (k, v) :: d' else (k', v') :: dict_set k v d'
  end.

Fixpoint dict_get {V} (k : string) (d : list (string * V)) : option V :=
  match d with
  | [] => None
  | (k', v) :: d' => if String.eqb k' k then Some v else dict_get k d'
  end.

Definition dict_mem {V} (k : string) (d : list (string * V)) : bool :=
  match dict_get k d with Some _ => true | None => false end.

(** [{h.strip().lower(): h for h in headers}] *)
Definition normalize_headers (headers : list string) : list (string * string) :=
  foldl (fun d h => dict_set (lower (strip h)) h d) [] headers.

(** [{v.strip().lower(): k for k, v in REQUIRED_COLUMNS.items()}] *)
Definition required_normalized : list (string * string) :=
  foldl (fun d kv => dict_set (lower (strip kv.2)) kv.1 d) [] REQUIRED_COLUMNS.

Section Script.

Variable env : Env.

(** the loop "Find existing columns" *)
Fixpoint find_existing (headers : list string) (items : list (string * string))
  (col_map : gmap string nat) : M (gmap string nat) :=
  match items with
  | [] => ret col_map
  | (norm_header, orig_header) :: rest =>
      match dict_get norm_header required_normalized with
      | Some key =>
          match index_of orig_header headers with
          | Some i => find_existing headers rest (<[key := i + 1]> col_map)
          | None => raise (ValueError ("'" ++ orig_header ++ "' is not in list"))
          end
      | None => find_existing headers rest col_map
      end
  end.

(** the loop "Final verification" *)
Fixpoint final_verification (headers : list string) (items : list (string * string))
  (col_map : gmap string nat) : M (gmap string nat) :=
  match items with
  | [] => ret col_map
  | (key, col_name) :: rest =>
      match index_of col_name headers with
      | Some i => final_verification headers rest (<[key := i + 1]> col_map)
      | None => raise (RuntimeError ("Missing critical column: '" ++ col_name ++ "'"))
      end
  end.

(** The label of the update names row 11, as in [Main.setup_sheet]. *)
Definition setup_sheet : M (gmap string nat) :=
  raw ← row_values env 1;
  let headers := map strip raw in
  let normalized_headers := normalize_headers headers in
  col_map ← find_existing headers normalized_headers ∅;
  let new_columns :=
    List.filter (fun col => negb (dict_mem (lower (strip col)) normalized_headers))
           (map snd REQUIRED_COLUMNS) in
  headers ← match new_columns with
            | [] => ret headers
            | _ :: _ =>
                add_cols env (length new_columns);;
                let end_col := length headers in
                update_range env 11 (end_col + 1) new_columns;;
                ret (headers ++ new_columns)%list
            end;
  final_verification headers REQUIRED_COLUMNS col_map.

Definition rejection_msg (humor : string) : string :=
  "🚨 Disqualified!" ++ nl ++ nl ++ humor ++ nl ++ nl ++ "Requirements:" ++ nl
  ++ "- Account age ≥ " ++ pretty MIN_ACCOUNT_AGE_DAYS ++ " days" ++ nl
  ++ "- Minimum 1 meme posted (optional but encouraged)".

Definition acceptance_msg (code humor : string) : string :=
  "🎉 Your Match Code: " ++ code ++ nl ++ nl ++ "🔮 How this works:" ++ nl
  ++ "1. Results in 3-5 days (need to consult Bagmati River dolphins 🐬)" ++ nl
  ++ "2. Lose code = match with r/Nepal AutoModerator" ++ nl
  ++ "3. Valid during strikes, protests, and NTC outages" ++ nl ++ nl ++ humor.

(** [for attempt in range(MAX_DM_RETRIES)] with its [break]; the result is
    the final value of [success] *)
Fixpoint send_with_retries (username message : string) (attempts : list nat) : M bool :=
  match attempts with
  | [] => ret false
  | attempt :: rest =>
      sent ← send_dm env username message (0 <? attempt)%nat;
      if (sent : bool) then ret true
      else sleep 120;; send_with_retries username message rest
  end.

(** [row[key]] on a record *)
Definition row_get (row : gmap string string) (key : string) : M string :=
  match row !! key with
  | Some v => ret v
  | None => raise (KeyError key)
  end.

(** the body of the [try] of one row; [continue] is the end of the body *)
Definition row_body (col : gmap string nat) (idx : nat) (row : gmap string string)
  : M unit :=
  c_status ← col_get col "status";
  current_status ← cell env idx c_status;
  if status_in current_status SKIP_STATUSES then ret tt else
  let username := strip (default EmptyString (row !! "Reddit Username:")) in
  raw_pref ← row_get row "Do You Accept DM Notifications About Your Match?";
  let dm_pref := strip raw_pref in
  if negb (str_in dm_pref ACCEPTED_PREFS) then
    c ← col_get col "status";
    update_cell env idx c "Opted Out"
  else if negb (startswith (lower username) "u/") then
    c ← col_get col "status";
    update_cell env idx c "Invalid Format"
  else
    eligible ← is_eligible env username;
    if negb eligible then
      humor ← random_choice env HUMOR_rejections;
      send_dm env username (rejection_msg humor) false;;
      c ← col_get col "status";
      update_cell env idx c "Rejected"
    else
      code ← generate_code env username;
      c_code ← col_get col "code";
      stored ← cell env idx c_code;
      (if falsy stored then
         c ← col_get col "code";
         update_cell env idx c code
       else ret tt);;
      humor ← random_choice env HUMOR_dm_messages;
      let message := acceptance_msg code humor in
      success ← send_with_retries username message (seq 0 MAX_DM_RETRIES);
      c ← col_get col "status";
      update_cell env idx c (if (success : bool) then "Processed" else "Failed");;
      c ← col_get col "dm_status";
      update_cell env idx c (if (success : bool) then "✅ Sent" else "❌ Failed").

(** one iteration of the loop over the records *)
Definition process_row (col : gmap string nat) (idx : nat) (row : gmap string string)
  : M unit :=
  try_except (row_body col idx row)
    (fun e =>
       print ("Error processing row " ++ pretty idx ++ ": " ++ exn_str e);;
       c ← col_get col "status";
       update_cell env idx c "Error").

(** [for idx, row in enumerate(records, start=2)] *)
Fixpoint process_rows (col : gmap string nat) (idx : nat)
  (records : list (gmap string string)) : M unit :=
  match records with
  | [] => ret tt
  | row :: rest => process_row col idx row;; process_rows col (S idx) rest
  end.

(** [try: col = setup_sheet(sheet)  except RuntimeError as e: ...; return] *)
Definition setup_or_report : M (option (gmap string nat)) := fun w =>
  match setup_sheet w with
  | (Ok col, w') => (Ok (Some col), w')
  | (Raise (RuntimeError m), w') =>
      (print ("Sheet setup failed: " ++ m);; ret None) w'
  | (Raise e, w') => (Raise e, w')
  end.

Definition process_responses : M unit :=
  open_sheet env;;
  setup ← setup_or_report;
  match setup with
  | None => ret tt
  | Some col =>
      records ← get_all_records env;
      process_rows col 2 records
  end.

End Script.
End Immediate.

(** ** Reading a trace *)

Definition is_message (e : Event) : bool :=
  match e with Message _ _ _ _ => true | _ => false end.

Definition is_delivered (e : Event) : bool :=
  match e with Message _ _ _ true => true | _ => false end.

Definition is_generate (e : Event) : bool :=
  match e with Generate _ _ => true | _ => false end.

(** the delivery attempts of a trace, in order *)
Definition attempts_of (evs : list Event) : list Event := List.filter is_message evs.

(** no spreadsheet request raises *)
Definition reliable (env : Env) : Prop := forall n, api_fault env n = None.

(** ** The shape of a delivery loop

    [subject_of] and [body_of] are what [send_dm] hands to the platform on
    an original attempt and on a retry. *)

Definition subject_of (is_retry : bool) : string :=
  if is_retry then "🚨 Code Redelivery!" else "🔐 Your Match Code".

Definition body_of (message : string) (is_retry : bool) : string :=
  if is_retry then message ++ RETRY_SUFFIX else message.

(** [attempts_log gap username message attempts success evs]: the events
    [evs] are those of a loop over [attempts] that stops at the first
    delivered message, with the events [gap] after every failed attempt. *)
Inductive attempts_log (gap : list Event) (username message : string)
  : list nat -> bool -> list Event -> Prop :=
| log_exhausted :
    attempts_log gap username message [] false []
| log_delivered attempt rest :
    attempts_log gap username message (attempt :: rest) true
      [ Message (handle_name username) (subject_of (0 <? attempt)%nat)
                (body_of message (0 <? attempt)%nat) true;
        Sleep 20 ]
| log_failed attempt rest e success evs :
    attempts_log gap username message rest success evs ->
    attempts_log gap username message (attempt :: rest) success
      ([ Message (handle_name username) (subject_of (0 <? attempt)%nat)
                 (body_of message (0 <? attempt)%nat) false;
         Printed ("DM failed for " ++ username ++ ": " ++ exn_str e) ]
       ++ gap ++ evs)%list.

(** ** What a theorem assumes about a row *)

Definition USERNAME_HEADER : string := "Reddit Username:".
Definition DM_PREF_HEADER : string :=
  "Do You Accept DM Notifications About Your Match?".

(** the handle and the preference that both scripts read from a record *)
Definition username_of (row : gmap string string) : string :=
  strip (default EmptyString (row !! USERNAME_HEADER)).

Definition dm_pref_of (row : gmap string string) : string :=
  strip (default EmptyString (row !! DM_PREF_HEADER)).

(** the column map sends the three columns that are written to three
    different columns, as the result of [setup_sheet] does *)
Definition columns (col : gmap string nat) (c_status c_code c_dm : nat) : Prop :=
  col !! "status" = Some c_status /\ col !! "code" = Some c_code
  /\ col !! "dm_status" = Some c_dm
  /\ c_status <> c_code /\ c_status <> c_dm /\ c_code <> c_dm.

(** the row is not skipped, its preference is accepted and its handle has
    the prefix *)
Definition passes_format (idx : nat) (row : gmap string string) (w : World)
  (c_status : nat) : Prop :=
  status_in (grid w !! (idx, c_status)) SKIP_STATUSES = false
  /\ str_in (dm_pref_of row) ACCEPTED_PREFS = true
  /\ startswith (lower (username_of row)) "u/" = true.

(** the sleeps between consecutive delivery attempts of a trace: one list of
    durations for every pair of neighbouring attempts *)
Fixpoint delays_go (evs : list Event) (cur : list nat) : list (list nat) :=
  match evs with
  | [] => []
  | Message _ _ _ _ :: rest => cur :: delays_go rest []
  | Sleep secs :: rest => delays_go rest (cur ++ [secs])
  | _ :: rest => delays_go rest cur
  end.

Definition delays_between (evs : list Event) : list (list nat) :=
  tail (delays_go evs []).

(** ** What the theorems state about the events of one row *)

(** at most [MAX_DM_RETRIES] attempts, and a delivered attempt is the last *)
Definition ceiling_respected (evs : list Event) : Prop :=
  length (attempts_of evs) <= MAX_DM_RETRIES
  /\ forall i e, attempts_of evs !! i = Some e -> is_delivered e = true ->
                 length (attempts_of evs) = S i.

(** the status and the delivery status that follow from the attempts *)
Definition outcome_recorded (evs : list Event) (w' : World)
  (idx c_status c_dm : nat) : Prop :=
  grid w' !! (idx, c_status)
  = Some (if existsb is_delivered (attempts_of evs) then "Processed" else "Failed")
  /\ grid w' !! (idx, c_dm)
     = Some (if existsb is_delivered (attempts_of evs) then "✅ Sent" else "❌ Failed")
  /\ (grid w' !! (idx, c_dm) = Some "✅ Sent"
      <-> existsb is_delivered (attempts_of evs) = true).

(** the events of a delivery loop: messages, their log lines and sleeps *)
Definition is_delivery_event (e : Event) : bool :=
  match e with
  | Message _ _ _ _ | Printed _ | Sleep _ => true
  | _ => false
  end.

Definition is_write_to (r c : nat) (e : Event) : bool :=
  match e with
  | UpdateCell r' c' _ => (r' =? r)%nat && (c' =? c)%nat
  | _ => false
  end.

(** the writes of a trace into one cell, and its code generations *)
Definition writes_to (r c : nat) (evs : list Event) : list Event :=
  List.filter (is_write_to r c) evs.

Definition generations (evs : list Event) : list Event := List.filter is_generate evs.

(** the code step of a row: the code is generated once; it is written
    exactly when the code cell held nothing, and then it is what the cell
    holds afterwards; a cell that held something holds it afterwards *)
Definition code_step (username : string) (idx c_code : nat) (w w' : World)
  (evs : list Event) : Prop :=
  exists code,
    generations evs = [Generate username code]
    /\ writes_to idx c_code evs
       = (if falsy (grid w !! (idx, c_code)) then [UpdateCell idx c_code code] else [])
    /\ grid w' !! (idx, c_code)
       = (if falsy (grid w !! (idx, c_code)) then Some code else grid w !! (idx, c_code)).

(** a computation that leaves the value [v] in the cell [k] *)
Definition keeps {A} (k : nat * nat) (v : string) (m : M A) : Prop :=
  forall w, grid w !! k = Some v -> grid (m w).2 !! k = Some v.

Definition CODE_LINE : string := "🎉 Your Match Code: ".

(** the code in the messages of a row: the code is generated in this row,
    every attempt is addressed to the account of the handle and its body
    opens with that code, and the cell holds the code of the messages
    exactly when it held nothing before or held that very code *)
Definition fresh_code_delivered (username : string) (idx c_code : nat)
  (w w' : World) (evs : list Event) : Prop :=
  exists code,
    generations evs = [Generate username code]
    /\ attempts_of evs <> []
    /\ (forall e, e ∈ attempts_of evs ->
          exists subject body delivered,
            e = Message (handle_name username) subject body delivered
            /\ startswith body (CODE_LINE ++ code) = true)
    /\ (grid w' !! (idx, c_code) = Some code
        <-> falsy (grid w !! (idx, c_code)) = true
            \/ grid w !! (idx, c_code) = Some code).

(** an event that is neither a delivery attempt nor a sleep *)
Definition is_silent (e : Event) : bool :=
  match e with
  | Message _ _ _ _ | Sleep _ => false
  | _ => true
  end.

(** ** Shapes of a handle *)


(** the lower-case prefix occurs nowhere in the text *)
Fixpoint prefix_free (s : string) : bool :=
  match s with
  | EmptyString => true
  | String _ s' => negb (startswith s "u/") && prefix_free s'
  end.

(** the header row as [setup_sheet] sees it: the cells of row 1, trimmed *)
Definition header_row (w : World) : list string :=
  map strip (cells_of_row (grid w) 1 (last_col_of_row 1 (grid w))).

(** a column map that sends every logical key to the position of its
    header *)
Definition resolves (headers : list string) (required : list (string * string))
  (col : gmap string nat) : Prop :=
  Forall (fun kv => exists i, index_of kv.2 headers = Some i /\ col !! kv.1 = Some (i + 1))
         required.

(** ** Sample inputs

    A sheet with the five headers in columns 1 to 5, an account directory
    with one old and one new account, and collaborators whose faults are
    given per experiment. *)

Definition sample_accounts (name : string) : Res Z :=
  if String.eqb name "testuser123" then Ok 1600000000%Z
  else if String.eqb name "newcomer" then Ok 1699000000%Z
  else Raise (RedditError "received 404 HTTP response").

Definition sample_env (api dm : nat -> option Exn) : Env :=
  mkEnv api sample_accounts dm
        (fun n => (1700000000000000 + Z.of_nat n)%Z) 0%Z
        (fun t => pretty t)
        (fun s => String.rev s ++ "00000000")
        (fun _ _ => 0).

Definition no_fault : nat -> option Exn := fun _ => None.

Definition sample_col : gmap string nat :=
  list_to_map [("username", 1); ("dm_pref", 2); ("code", 3); ("status", 4);
               ("dm_status", 5)].

Definition sample_headers : list (nat * nat * string) :=
  [ ((1, 1), "Reddit Username:");
    ((1, 2), "Do You Accept DM Notifications About Your Match?");
    ((1, 3), "Code"); ((1, 4), "Status"); ((1, 5), "DM Status") ].

Definition sample_record (username dm_pref : string) : gmap string string :=
  list_to_map [(USERNAME_HEADER, username); (DM_PREF_HEADER, dm_pref)].

Definition sample_world (cells : list (nat * nat * string)) : World :=
  mkWorld (list_to_map (sample_headers ++ cells)%list) [] 0 0 0 0.

Definition MAYBE : string := "Maybe, but only if my match is cool.".

(** spreadsheet requests that fail with a quota error, and a platform that
    rejects its first message request *)
Definition quota_at (ns : list nat) (n : nat) : option Exn :=
  if existsb (Nat.eqb n) ns then Some (APIError "Quota exceeded") else None.

Definition first_dm_fails (n : nat) : option Exn :=
  if (n =? 0)%nat then Some (RedditError "RATELIMIT") else None.

(** a sheet with two participants who declined *)
Definition two_declined : World :=
  sample_world [ ((2, 1), "u/testuser123"); ((2, 2), "No thanks");
                 ((3, 1), "u/newcomer"); ((3, 2), "No thanks") ].

(** a header row that spells the code column in lower case and pads the
    status column with blanks *)
Definition varied_headers : World :=
  mkWorld (list_to_map
             [ ((1, 1), "Reddit Username:");
               ((1, 2), "Do You Accept DM Notifications About Your Match?");
               ((1, 3), "code"); ((1, 4), " Status "); ((1, 5), "DM Status") ])
          [] 0 0 0 0.

(** the status column of the data rows 2 and 3 *)
Definition statuses (w : World) : list (option string) :=
  [grid w !! (2, 4); grid w !! (3, 4)].

(** ** Further notions for the properties of the scripts *)

(** the world after a row that read its status cell and wrote one status *)
Definition status_written (idx c_status : nat) (status : string) (w : World) : World :=
  record (UpdateCell idx c_status status)
    (set_grid (<[(idx, c_status) := status]> (grid w)) (tick_api (tick_api w))).

Definition is_sleep (e : Event) : bool :=
  match e with Sleep _ => true | _ => false end.

(** characters of a hexadecimal digest, and of a code *)
Definition is_hex_lower (c : ascii) : bool :=
  let n := nat_of_ascii c in
  ((48 <=? n)%nat && (n <=? 57)%nat) || ((97 <=? n)%nat && (n <=? 102)%nat).

Definition is_hex_upper (c : ascii) : bool :=
  let n := nat_of_ascii c in
  ((48 <=? n)%nat && (n <=? 57)%nat) || ((65 <=? n)%nat && (n <=? 70)%nat).

Fixpoint all_chars (P : ascii -> bool) (s : string) : bool :=
  match s with
  | EmptyString => true
  | String c s' => P c && all_chars P s'
  end.

(** what [hashlib.sha256(...).hexdigest()] returns: 64 hexadecimal digits in
    lower case *)
Definition hex_digest (env : Env) : Prop :=
  forall s, String.length (sha256_hexdigest env s) = 64
            /\ all_chars is_hex_lower (sha256_hexdigest env s) = true.

(** collaborators whose digest is a fixed string of 64 digits *)
Definition digest_env : Env :=
  mkEnv no_fault sample_accounts no_fault
        (fun n => (1700000000000000 + Z.of_nat n)%Z) 0%Z
        (fun t => pretty t)
        (fun _ => "9f86d081884c7d659a2feaa0c55ad015a3bf4f1b2b0b822cd15d6c15b0f00a08")
        (fun _ _ => 0).

(** a computation that leaves the cell [k] as it is, whatever it holds *)
Definition untouched {A} (k : nat * nat) (m : M A) : Prop :=
  forall w, grid (m w).2 !! k = grid w !! k.

(** the cell [k] is not one that the row [idx] may write: it lies in another
    row, or in a column that is none of the three written ones *)
Definition off_limits (col : gmap string nat) (idx : nat) (k : nat * nat) : Prop :=
  k.1 <> idx
  \/ (col !! "status" <> Some k.2 /\ col !! "code" <> Some k.2
      /\ col !! "dm_status" <> Some k.2).

(** the required names that the header row lacks, in the order of the
    specification: the columns that [main.py] creates *)
Definition absent (headers : list string) (name : string) : bool :=
  match index_of name headers with Some _ => false | None => true end.

Definition missing_columns (headers : list string) : list string :=
  List.filter (absent headers) (map snd Main.COLUMN_MAP).

(** what the creation of columns adds to the trace *)
Definition creation_events (headers new_columns : list string) : list Event :=
  match new_columns with
  | [] => []
  | _ :: _ => [AddCols (length new_columns);
               UpdateRange 11 (length headers + 1) new_columns]
  end.

(** a header row with the names padded by blanks, and one that lacks the
    code and the delivery-status columns *)
Definition padded_headers : World :=
  mkWorld (list_to_map
             [ ((1, 1), " Reddit Username: ");
               ((1, 2), "Do You Accept DM Notifications About Your Match?  ");
               ((1, 3), "Timestamp");
               ((1, 4), "  Code"); ((1, 5), "Status "); ((1, 6), " DM Status ") ])
          [] 0 0 0 0.

Definition short_headers : World :=
  mkWorld (list_to_map
             [ ((1, 1), "Timestamp"); ((1, 2), "Reddit Username:");
               ((1, 3), "Do You Accept DM Notifications About Your Match?");
               ((1, 4), "Status") ])
          [] 0 0 0 0.

(** the attempts of a row carry one message: the first as an original, every
    later one as a retry *)
Definition attempts_marked_as (username message : string) (evs : list Event) : Prop :=
  forall i e, attempts_of evs !! i = Some e ->
    exists delivered,
      e = Message (handle_name username) (subject_of (0 <? i)%nat)
                  (body_of message (0 <? i)%nat) delivered.

(** * Properties *)

Example strip_ex : strip "  u/abc  " = "u/abc".
Proof. reflexivity. Qed.
Example split_ex : split "u/" " u/au/b " = [" "; "a"; "b "].
Proof. reflexivity. Qed.
Example split_ex2 : split "u/" "U/abc" = ["U/abc"].
Proof. reflexivity. Qed.
Example split_ex3 : split "u/" "u/u/" = [""; ""; ""].
Proof. reflexivity. Qed.
Example split_ex4 : split "ab" "xabab" = ["x"; ""; ""].
Proof. reflexivity. Qed.
Example records_ex :
  records_of (list_to_map [((1,1),"a"); ((1,2),"b"); ((2,1),"x"); ((3,2),"y")])
  = [ list_to_map [("a","x"); ("b","")]; list_to_map [("a",""); ("b","y")] ].
Proof. vm_compute. reflexivity. Qed.

(** ** Running the monad *)

Lemma bind_run {A B} (m : M A) (k : A -> M B) (w : World) :
  (m ≫= k) w =
  match m w with
  | (Ok a, w') => k a w'
  | (Raise e, w') => (Raise e, w')
  end.
Proof. reflexivity. Qed.

Lemma try_except_run {A} (m : M A) (h : Exn -> M A) (w : World) :
  try_except m h w =
  match m w with
  | (Ok a, w') => (Ok a, w')
  | (Raise e, w') => h e w'
  end.
Proof. reflexivity. Qed.

Lemma col_get_some (col : gmap string nat) key c w :
  col !! key = Some c -> col_get col key w = (Ok c, w).
Proof. intros H. unfold col_get. rewrite H. reflexivity. Qed.

Lemma cell_answers env r c w :
  api_fault env (api_calls w) = None ->
  cell env r c w = (Ok (grid w !! (r, c)), tick_api w).
Proof. intros H. unfold cell, api_call. rewrite H. reflexivity. Qed.

Lemma update_cell_answers env r c v w :
  api_fault env (api_calls w) = None ->
  update_cell env r c v w =
  (Ok tt, record (UpdateCell r c v) (set_grid (<[(r, c) := v]> (grid w)) (tick_api w))).
Proof. intros H. unfold update_cell, api_call. rewrite H. reflexivity. Qed.

Lemma update_cell_raises env r c v w e :
  api_fault env (api_calls w) = Some e ->
  update_cell env r c v w = (Raise e, tick_api w).
Proof. intros H. unfold update_cell, api_call. rewrite H. reflexivity. Qed.

(** ** The Eligibility Checker *)

Lemma is_eligible_run env username w :
  is_eligible env username w =
  (Ok match account env (handle_name username) with
      | Ok created =>
          (MIN_ACCOUNT_AGE_DAYS
           <=? days (clock env (clock_reads w) - fromtimestamp env created))%Z
      | Raise _ => false
      end,
   record (Lookup (handle_name username)) (tick_clock w)).
Proof.
  unfold is_eligible. rewrite try_except_run, bind_run. unfold utcnow.
  rewrite bind_run. unfold redditor_created_utc.
  destruct (account env (handle_name username)); reflexivity.
Qed.

(** C4: when the account lookup raises, whatever the exception, the
    Eligibility Checker answers false; and on every handle and in every
    state of the world it returns a boolean, never an exception. *)
Theorem C4_lookup_failure_is_ineligible env username w e :
  account env (handle_name username) = Raise e ->
  (is_eligible env username w).1 = Ok false
  /\ forall username' w', exists b, (is_eligible env username' w').1 = Ok b.
Proof.
  intros Hfail. split.
  - rewrite is_eligible_run, Hfail. reflexivity.
  - intros u w'. rewrite is_eligible_run. eauto.
Qed.

(** ** Message Delivery *)

Lemma send_dm_run env username message is_retry w :
  send_dm env username message is_retry w =
  match dm_fault env (dm_calls w) with
  | None =>
      (Ok true,
       record (Sleep 20)
         (record (Message (handle_name username) (subject_of is_retry)
                          (body_of message is_retry) true) (tick_dm w)))
  | Some e =>
      (Ok false,
       record (Printed ("DM failed for " ++ username ++ ": " ++ exn_str e))
         (record (Message (handle_name username) (subject_of is_retry)
                          (body_of message is_retry) false) (tick_dm w)))
  end.
Proof.
  unfold send_dm. rewrite try_except_run, bind_run. unfold redditor_message.
  destruct is_retry; destruct (dm_fault env (dm_calls w)); reflexivity.
Qed.

Lemma trace_record e w : trace (record e w) = (trace w ++ [e])%list.
Proof. reflexivity. Qed.

(** the retry loop of [main.py] *)
Lemma any_send_dm_run env username message attempts w :
  exists success evs w',
    Main.any_send_dm env username message attempts w = (Ok success, w')
    /\ grid w' = grid w
    /\ trace w' = (trace w ++ evs)%list
    /\ attempts_log [] username message attempts success evs.
Proof.
  revert w. induction attempts as [|a rest IH]; intros w.
  - exists false, [], w. repeat split.
    + by rewrite app_nil_r.
    + constructor.
  - cbn [Main.any_send_dm]. rewrite bind_run, send_dm_run.
    destruct (dm_fault env (dm_calls w)) as [e|].
    + destruct (IH (record (Printed ("DM failed for " ++ username ++ ": " ++ exn_str e))
         (record (Message (handle_name username) (subject_of (0 <? a)%nat)
                          (body_of message (0 <? a)%nat) false) (tick_dm w))))
        as (b & evs & w' & Hrun & Hg & Ht & Hlog).
      eexists b, _, w'. split; [exact Hrun|]. split; [exact Hg|]. split.
      * rewrite Ht. cbn [trace record tick_dm]. rewrite <- !app_assoc. reflexivity.
      * apply (log_failed [] username message a rest e b evs Hlog).
    + eexists true, _, _. split; [reflexivity|]. split; [reflexivity|]. split.
      * cbn [trace record tick_dm]. rewrite <- !app_assoc. reflexivity.
      * constructor.
Qed.

(** the retry loop of [immediate_response_script.py] *)
Lemma send_with_retries_run env username message attempts w :
  exists success evs w',
    Immediate.send_with_retries env username message attempts w = (Ok success, w')
    /\ grid w' = grid w
    /\ trace w' = (trace w ++ evs)%list
    /\ attempts_log [Sleep 120] username message attempts success evs.
Proof.
  revert w. induction attempts as [|a rest IH]; intros w.
  - exists false, [], w. repeat split.
    + by rewrite app_nil_r.
    + constructor.
  - cbn [Immediate.send_with_retries]. rewrite bind_run, send_dm_run.
    destruct (dm_fault env (dm_calls w)) as [e|].
    + rewrite bind_run. unfold sleep at 1, log at 1.
      destruct (IH (record (Sleep 120)
         (record (Printed ("DM failed for " ++ username ++ ": " ++ exn_str e))
         (record (Message (handle_name username) (subject_of (0 <? a)%nat)
                          (body_of message (0 <? a)%nat) false) (tick_dm w)))))
        as (b & evs & w' & Hrun & Hg & Ht & Hlog).
      eexists b, _, w'. split; [exact Hrun|]. split; [exact Hg|]. split.
      * rewrite Ht. cbn [trace record tick_dm]. rewrite <- !app_assoc. reflexivity.
      * apply (log_failed [Sleep 120] username message a rest e b evs Hlog).
    + eexists true, _, _. split; [reflexivity|]. split; [reflexivity|]. split.
      * cbn [trace record tick_dm]. rewrite <- !app_assoc. reflexivity.
      * constructor.
Qed.

(** ** The Code Generator *)

Lemma generate_code_run env username w :
  generate_code env username w =
  let code :=
    upper (take_str 8 (sha256_hexdigest env
      (username ++ str_datetime env (clock env (clock_reads w) + tz_offset env)%Z))) in
  (Ok code, record (Generate username code) (tick_clock w)).
Proof. reflexivity. Qed.

Lemma random_choice_run env xs w :
  random_choice env xs w =
  (Ok (nth (randbelow env (draws w) (length xs)) xs EmptyString), tick_draw w).
Proof. reflexivity. Qed.

(** ** A row that passes every check *)

Lemma accepted_pref_present row :
  str_in (dm_pref_of row) ACCEPTED_PREFS = true ->
  exists pref, row !! DM_PREF_HEADER = Some pref.
Proof.
  unfold dm_pref_of. destruct (row !! DM_PREF_HEADER) as [pref|]; [eauto|].
  cbn. discriminate.
Qed.

Lemma row_get_some (row : gmap string string) key v w :
  row !! key = Some v -> Immediate.row_get row key w = (Ok v, w).
Proof. intros H. unfold Immediate.row_get. rewrite H. reflexivity. Qed.

(** one step of a run: the head of a bind is rewritten by [tac] and the
    continuation is entered *)
Ltac run_with tac := rewrite bind_run; tac; cbv beta iota zeta.

Ltac world_proj :=
  cbn [grid trace clock_reads dm_calls draws record set_grid tick_api tick_clock
       tick_draw tick_dm] in *.

(** the two status writes that end an eligible row, and the bookkeeping of
    the trace and of the grid *)
Ltac finish_eligible Hrel Hcs Hcd code humor :=
  match goal with
  | Hrun : _ = (Ok ?b, ?w1), Hlog : attempts_log _ _ _ _ ?b ?dl |- _ =>
      rewrite Hrun; cbv beta iota;
      run_with ltac:(rewrite (col_get_some _ _ _ _ Hcs));
      run_with ltac:(rewrite update_cell_answers by apply Hrel);
      run_with ltac:(rewrite (col_get_some _ _ _ _ Hcd));
      rewrite update_cell_answers by apply Hrel;
      exists code, humor, b, dl; eexists; split; [reflexivity|];
      split; [exact Hlog|]; world_proj;
      match goal with
      | Hg : grid w1 = _, Ht : trace w1 = _ |- _ => rewrite Hg, Ht
      end;
      split; [rewrite <- !app_assoc; reflexivity | reflexivity]
  end.

Lemma Main_eligible_row env col idx row w c_status c_code c_dm :
  reliable env -> columns col c_status c_code c_dm ->
  passes_format idx row w c_status ->
  (is_eligible env (username_of row) w).1 = Ok true ->
  exists code humor success dl w',
    Main.process_row env col idx row w = (Ok tt, w')
    /\ attempts_log [] (username_of row) (Main.acceptance_msg code humor)
         (seq 0 MAX_DM_RETRIES) success dl
    /\ trace w' =
       (trace w
        ++ [Lookup (handle_name (username_of row)); Generate (username_of row) code]
        ++ (if falsy (grid w !! (idx, c_code)) then [UpdateCell idx c_code code] else [])
        ++ dl
        ++ [UpdateCell idx c_status (if success then "Processed" else "Failed");
            UpdateCell idx c_dm (if success then "✅ Sent" else "❌ Failed")])%list
    /\ grid w' =
       <[(idx, c_dm) := if success then "✅ Sent" else "❌ Failed"]>
         (<[(idx, c_status) := if success then "Processed" else "Failed"]>
            (if falsy (grid w !! (idx, c_code))
             then <[(idx, c_code) := code]> (grid w) else grid w)).
Proof.
  intros Hrel (Hcs & Hcc & Hcd & _) (Hskip & Hpref & Hfmt) Helig.
  unfold Main.process_row, Main.row_body.
  rewrite try_except_run.
  run_with ltac:(rewrite (col_get_some _ _ _ _ Hcs)).
  run_with ltac:(rewrite cell_answers by apply Hrel).
  world_proj. rewrite Hskip.
  fold USERNAME_HEADER DM_PREF_HEADER. fold (username_of row) (dm_pref_of row).
  rewrite Hpref, Hfmt. cbn [negb].
  rewrite is_eligible_run in Helig. cbn [fst] in Helig.
  run_with ltac:(rewrite is_eligible_run).
  world_proj. injection Helig as ->. cbn [negb].
  run_with ltac:(rewrite generate_code_run).
  set (code := upper _).
  run_with ltac:(rewrite (col_get_some _ _ _ _ Hcc)).
  run_with ltac:(rewrite cell_answers by apply Hrel).
  world_proj. rewrite bind_run.
  destruct (falsy (grid w !! (idx, c_code))) eqn:Hempty.
  - run_with ltac:(rewrite (col_get_some _ _ _ _ Hcc)).
    rewrite update_cell_answers by apply Hrel. cbv beta iota.
    run_with ltac:(rewrite random_choice_run).
    set (humor := nth _ _ _).
    rewrite bind_run.
    match goal with |- context [Main.any_send_dm env ?u ?m ?a ?W] =>
      destruct (any_send_dm_run env u m a W) as (b & dl & w1 & Hrun & Hg & Ht & Hlog)
    end.
    finish_eligible Hrel Hcs Hcd code humor.
  - unfold ret at 1. cbv beta iota.
    run_with ltac:(rewrite random_choice_run).
    set (humor := nth _ _ _).
    rewrite bind_run.
    match goal with |- context [Main.any_send_dm env ?u ?m ?a ?W] =>
      destruct (any_send_dm_run env u m a W) as (b & dl & w1 & Hrun & Hg & Ht & Hlog)
    end.
    finish_eligible Hrel Hcs Hcd code humor.
Qed.

Lemma Immediate_eligible_row env col idx row w c_status c_code c_dm :
  reliable env -> columns col c_status c_code c_dm ->
  passes_format idx row w c_status ->
  (is_eligible env (username_of row) w).1 = Ok true ->
  exists code humor success dl w',
    Immediate.process_row env col idx row w = (Ok tt, w')
    /\ attempts_log [Sleep 120] (username_of row) (Immediate.acceptance_msg code humor)
         (seq 0 MAX_DM_RETRIES) success dl
    /\ trace w' =
       (trace w
        ++ [Lookup (handle_name (username_of row)); Generate (username_of row) code]
        ++ (if falsy (grid w !! (idx, c_code)) then [UpdateCell idx c_code code] else [])
        ++ dl
        ++ [UpdateCell idx c_status (if success then "Processed" else "Failed");
            UpdateCell idx c_dm (if success then "✅ Sent" else "❌ Failed")])%list
    /\ grid w' =
       <[(idx, c_dm) := if success then "✅ Sent" else "❌ Failed"]>
         (<[(idx, c_status) := if success then "Processed" else "Failed"]>
            (if falsy (grid w !! (idx, c_code))
             then <[(idx, c_code) := code]> (grid w) else grid w)).
Proof.
  intros Hrel (Hcs & Hcc & Hcd & _) (Hskip & Hpref & Hfmt) Helig.
  destruct (accepted_pref_present row Hpref) as [pref Hrow].
  unfold Immediate.process_row, Immediate.row_body.
  rewrite try_except_run.
  run_with ltac:(rewrite (col_get_some _ _ _ _ Hcs)).
  run_with ltac:(rewrite cell_answers by apply Hrel).
  world_proj. rewrite Hskip.
  fold USERNAME_HEADER DM_PREF_HEADER. fold (username_of row).
  run_with ltac:(rewrite (row_get_some _ _ _ _ Hrow)).
  unfold dm_pref_of in Hpref. rewrite Hrow in Hpref. cbn [default from_option id] in Hpref.
  rewrite Hpref, Hfmt. cbn [negb].
  rewrite is_eligible_run in Helig. cbn [fst] in Helig.
  run_with ltac:(rewrite is_eligible_run).
  world_proj. injection Helig as ->. cbn [negb].
  run_with ltac:(rewrite generate_code_run).
  set (code := upper _).
  run_with ltac:(rewrite (col_get_some _ _ _ _ Hcc)).
  run_with ltac:(rewrite cell_answers by apply Hrel).
  world_proj. rewrite bind_run.
  destruct (falsy (grid w !! (idx, c_code))) eqn:Hempty.
  - run_with ltac:(rewrite (col_get_some _ _ _ _ Hcc)).
    rewrite update_cell_answers by apply Hrel. cbv beta iota.
    run_with ltac:(rewrite random_choice_run).
    set (humor := nth _ _ _).
    rewrite bind_run.
    match goal with |- context [Immediate.send_with_retries env ?u ?m ?a ?W] =>
      destruct (send_with_retries_run env u m a W)
        as (b & dl & w1 & Hrun & Hg & Ht & Hlog)
    end.
    finish_eligible Hrel Hcs Hcd code humor.
  - unfold ret at 1. cbv beta iota.
    run_with ltac:(rewrite random_choice_run).
    set (humor := nth _ _ _).
    rewrite bind_run.
    match goal with |- context [Immediate.send_with_retries env ?u ?m ?a ?W] =>
      destruct (send_with_retries_run env u m a W)
        as (b & dl & w1 & Hrun & Hg & Ht & Hlog)
    end.
    finish_eligible Hrel Hcs Hcd code humor.
Qed.

(** ** What a delivery loop leaves in the trace *)

Section AttemptsLog.

Variables (gap : list Event) (username message : string).
Hypothesis gap_quiet : attempts_of gap = [].

Lemma attempts_of_app (l1 l2 : list Event) :
  attempts_of (l1 ++ l2) = (attempts_of l1 ++ attempts_of l2)%list.
Proof. apply List.filter_app. Qed.

Lemma attempts_log_count attempts success evs :
  attempts_log gap username message attempts success evs ->
  length (attempts_of evs) <= length attempts.
Proof.
  induction 1 as [| |a rest e b evs _ IH]; cbn; [lia|lia|].
  rewrite attempts_of_app, gap_quiet. cbn. lia.
Qed.

Lemma attempts_log_stop attempts success evs :
  attempts_log gap username message attempts success evs ->
  forall i e, attempts_of evs !! i = Some e -> is_delivered e = true ->
              length (attempts_of evs) = S i.
Proof.
  induction 1 as [| |a rest e0 b evs _ IH]; intros i e Hi He.
  - discriminate.
  - cbn in Hi. destruct i as [|i]; [reflexivity|]. destruct i; discriminate.
  - cbn in Hi |- *. rewrite attempts_of_app, gap_quiet in Hi |- *. cbn in Hi |- *.
    destruct i as [|i].
    + injection Hi as <-. discriminate.
    + f_equal. exact (IH i e Hi He).
Qed.

Lemma attempts_log_success attempts success evs :
  attempts_log gap username message attempts success evs ->
  existsb is_delivered (attempts_of evs) = success.
Proof.
  induction 1 as [| |a rest e b evs _ IH]; [reflexivity|reflexivity|].
  cbn. rewrite attempts_of_app, gap_quiet. exact IH.
Qed.

(** every attempt carries the message, the first as an original and all
    later ones as retries *)
Lemma attempts_log_marks start n success evs :
  attempts_log gap username message (seq start n) success evs ->
  forall i e, attempts_of evs !! i = Some e ->
    exists delivered,
      e = Message (handle_name username) (subject_of (0 <? start + i)%nat)
                  (body_of message (0 <? start + i)%nat) delivered.
Proof.
  revert start success evs.
  induction n as [|n IH]; intros start success evs Hlog i e Hi.
  - inversion Hlog; subst. discriminate.
  - cbn [seq] in Hlog. inversion Hlog as [| |a rest e0 b evs' Hrest]; subst.
    + cbn in Hi. destruct i as [|i]; [|destruct i; discriminate].
      injection Hi as <-. rewrite Nat.add_0_r. eauto.
    + cbn in Hi. rewrite attempts_of_app, gap_quiet in Hi. cbn in Hi.
      destruct i as [|i].
      * injection Hi as <-. rewrite Nat.add_0_r. eauto.
      * destruct (IH (S start) success evs' Hrest i e Hi) as [d ->].
        exists d. replace (start + S i) with (S start + i) by lia. reflexivity.
Qed.

End AttemptsLog.

Lemma attempts_of_row_events pre (c : bool) upd dl post :
  attempts_of pre = [] -> attempts_of upd = [] -> attempts_of post = [] ->
  attempts_of (pre ++ (if c then upd else []) ++ dl ++ post) = attempts_of dl.
Proof.
  intros Hpre Hupd Hpost. rewrite !attempts_of_app, Hpre, Hpost.
  destruct c; [rewrite Hupd|]; cbn; by rewrite app_nil_r.
Qed.

Lemma ceiling_of_log gap username message success dl evs :
  attempts_of gap = [] ->
  attempts_log gap username message (seq 0 MAX_DM_RETRIES) success dl ->
  attempts_of evs = attempts_of dl ->
  ceiling_respected evs.
Proof.
  intros Hgap Hlog Heq. unfold ceiling_respected. rewrite Heq. split.
  - apply (attempts_log_count _ _ _ Hgap) in Hlog. by rewrite length_seq in Hlog.
  - exact (attempts_log_stop _ _ _ Hgap _ _ _ Hlog).
Qed.

Lemma outcome_of_grid (g : gmap (nat * nat) string) evs w' idx c_status c_dm :
  c_status <> c_dm ->
  grid w' =
    <[(idx, c_dm) := if existsb is_delivered (attempts_of evs)
                     then "✅ Sent" else "❌ Failed"]>
      (<[(idx, c_status) := if existsb is_delivered (attempts_of evs)
                            then "Processed" else "Failed"]> g) ->
  outcome_recorded evs w' idx c_status c_dm.
Proof.
  intros Hne Hg. unfold outcome_recorded. rewrite Hg.
  rewrite lookup_insert_ne by congruence.
  rewrite !lookup_insert_eq. split; [reflexivity|]. split; [reflexivity|].
  destruct (existsb is_delivered (attempts_of evs)); split; congruence.
Qed.

(** C2: a row that passes the preference, format and eligibility checks sees
    at most [MAX_DM_RETRIES] delivery attempts, none after a delivered one;
    its status becomes Processed when an attempt was delivered and Failed
    otherwise, and its delivery status is the success marker exactly when an
    attempt was delivered.  In both scripts; the spreadsheet is assumed to
    answer every request of the row. *)
Theorem C2_retry_ceiling_and_final_status env col idx row w c_status c_code c_dm :
  reliable env -> columns col c_status c_code c_dm ->
  passes_format idx row w c_status ->
  (is_eligible env (username_of row) w).1 = Ok true ->
  (exists evs w',
      Main.process_row env col idx row w = (Ok tt, w')
      /\ trace w' = (trace w ++ evs)%list
      /\ ceiling_respected evs
      /\ outcome_recorded evs w' idx c_status c_dm)
  /\ (exists evs w',
      Immediate.process_row env col idx row w = (Ok tt, w')
      /\ trace w' = (trace w ++ evs)%list
      /\ ceiling_respected evs
      /\ outcome_recorded evs w' idx c_status c_dm).
Proof.
  intros Hrel Hcol Hfmt Helig.
  pose proof Hcol as (_ & _ & _ & _ & Hne & _).
  split.
  - destruct (Main_eligible_row env col idx row w _ _ _ Hrel Hcol Hfmt Helig)
      as (code & humor & b & dl & w' & Hrun & Hlog & Ht & Hg).
    eexists _, w'. split; [exact Hrun|]. split; [exact Ht|].
    assert (Hatt : forall c upd post, attempts_of upd = [] -> attempts_of post = [] ->
      attempts_of ([Lookup (handle_name (username_of row));
                    Generate (username_of row) code]
                   ++ (if c : bool then upd else []) ++ dl ++ post) = attempts_of dl)
      by (intros; by apply attempts_of_row_events).
    split.
    + eapply ceiling_of_log; [|exact Hlog|apply Hatt]; reflexivity.
    + eapply outcome_of_grid; [exact Hne|].
      rewrite Hatt by reflexivity.
      rewrite (attempts_log_success [] _ _ eq_refl _ _ _ Hlog). exact Hg.
  - destruct (Immediate_eligible_row env col idx row w _ _ _ Hrel Hcol Hfmt Helig)
      as (code & humor & b & dl & w' & Hrun & Hlog & Ht & Hg).
    eexists _, w'. split; [exact Hrun|]. split; [exact Ht|].
    assert (Hatt : forall c upd post, attempts_of upd = [] -> attempts_of post = [] ->
      attempts_of ([Lookup (handle_name (username_of row));
                    Generate (username_of row) code]
                   ++ (if c : bool then upd else []) ++ dl ++ post) = attempts_of dl)
      by (intros; by apply attempts_of_row_events).
    split.
    + eapply ceiling_of_log; [|exact Hlog|apply Hatt]; reflexivity.
    + eapply outcome_of_grid; [exact Hne|].
      rewrite Hatt by reflexivity.
      rewrite (attempts_log_success [Sleep 120] _ _ eq_refl _ _ _ Hlog). exact Hg.
Qed.

(** a sample row that passes every check, on a sheet that answers *)
Lemma sample_passes_format cells :
  status_in (grid (sample_world cells) !! (2, 4)) SKIP_STATUSES = false ->
  passes_format 2 (sample_record "u/testuser123" MAYBE) (sample_world cells) 4.
Proof. intros H. split; [exact H|]. split; vm_compute; reflexivity. Qed.

Lemma sample_columns : columns sample_col 4 3 5.
Proof. repeat split; try (vm_compute; reflexivity); discriminate. Qed.

Lemma C2_retry_ceiling_and_final_status_witness :
  (exists evs w',
      Main.process_row (sample_env no_fault no_fault) sample_col 2
        (sample_record "u/testuser123" MAYBE) (sample_world []) = (Ok tt, w')
      /\ trace w' = (trace (sample_world []) ++ evs)%list
      /\ ceiling_respected evs
      /\ outcome_recorded evs w' 2 4 5)
  /\ (exists evs w',
      Immediate.process_row (sample_env no_fault no_fault) sample_col 2
        (sample_record "u/testuser123" MAYBE) (sample_world []) = (Ok tt, w')
      /\ trace w' = (trace (sample_world []) ++ evs)%list
      /\ ceiling_respected evs
      /\ outcome_recorded evs w' 2 4 5).
Proof.
  apply (C2_retry_ceiling_and_final_status
           (sample_env no_fault no_fault) sample_col 2
           (sample_record "u/testuser123" MAYBE) (sample_world []) 4 3 5).
  - intros n. reflexivity.
  - exact sample_columns.
  - apply sample_passes_format. vm_compute. reflexivity.
  - vm_compute. reflexivity.
Defined.

(** ** Rows that are skipped *)

Lemma skip_status_in v :
  v = "Processed" \/ v = "Rejected" \/ v = "Opted Out" ->
  status_in (Some v) SKIP_STATUSES = true.
Proof. intros [->|[->| ->]]; reflexivity. Qed.

(** C1: a row whose status cell reads Processed, Rejected or Opted Out is
    left alone by both scripts: the only thing that happens is the read of
    the status cell.  No cell is written, no account is looked up, no code is
    generated and no message is sent: the grid, the trace, the clock and the
    counters of messages and random draws are as before. *)
Theorem C1_terminal_rows_are_skipped env col idx row w c_status v :
  col !! "status" = Some c_status ->
  api_fault env (api_calls w) = None ->
  grid w !! (idx, c_status) = Some v ->
  v = "Processed" \/ v = "Rejected" \/ v = "Opted Out" ->
  exists w',
    Main.process_row env col idx row w = (Ok tt, w')
    /\ Immediate.process_row env col idx row w = (Ok tt, w')
    /\ grid w' = grid w /\ trace w' = trace w
    /\ dm_calls w' = dm_calls w /\ clock_reads w' = clock_reads w
    /\ draws w' = draws w.
Proof.
  intros Hcs Hapi Hcell Hv. exists (tick_api w).
  apply skip_status_in in Hv.
  split; [|split; [|repeat split]].
  - unfold Main.process_row, Main.row_body. rewrite try_except_run.
    run_with ltac:(rewrite (col_get_some _ _ _ _ Hcs)).
    run_with ltac:(rewrite cell_answers by exact Hapi).
    world_proj. rewrite Hcell, Hv. reflexivity.
  - unfold Immediate.process_row, Immediate.row_body. rewrite try_except_run.
    run_with ltac:(rewrite (col_get_some _ _ _ _ Hcs)).
    run_with ltac:(rewrite cell_answers by exact Hapi).
    world_proj. rewrite Hcell, Hv. reflexivity.
Qed.

Lemma C1_terminal_rows_are_skipped_witness :
  exists w',
    Main.process_row (sample_env no_fault no_fault) sample_col 2
      (sample_record "u/testuser123" MAYBE)
      (sample_world [((2, 3), "9F86D081"); ((2, 4), "Processed"); ((2, 5), "✅ Sent")])
    = (Ok tt, w')
    /\ Immediate.process_row (sample_env no_fault no_fault) sample_col 2
      (sample_record "u/testuser123" MAYBE)
      (sample_world [((2, 3), "9F86D081"); ((2, 4), "Processed"); ((2, 5), "✅ Sent")])
    = (Ok tt, w')
    /\ grid w' = grid (sample_world [((2, 3), "9F86D081"); ((2, 4), "Processed"); ((2, 5), "✅ Sent")])
    /\ trace w' = []
    /\ dm_calls w' = 0 /\ clock_reads w' = 0 /\ draws w' = 0.
Proof.
  apply (C1_terminal_rows_are_skipped (sample_env no_fault no_fault) sample_col 2
           (sample_record "u/testuser123" MAYBE)
           (sample_world [((2, 3), "9F86D081"); ((2, 4), "Processed"); ((2, 5), "✅ Sent")])
           4 "Processed").
  - vm_compute. reflexivity.
  - reflexivity.
  - vm_compute. reflexivity.
  - left. reflexivity.
Defined.

(** ** Rows that fail the eligibility check *)

(** C6: when the preference is accepted, the handle has the prefix and the
    Eligibility Checker answers false, exactly one message is attempted, the
    rejection message sent as an original, and the status becomes Rejected
    whether or not that message was delivered.  In both scripts; the
    spreadsheet is assumed to answer every request of the row. *)
Theorem C6_ineligible_row_is_rejected env col idx row w c_status :
  reliable env -> col !! "status" = Some c_status ->
  passes_format idx row w c_status ->
  (is_eligible env (username_of row) w).1 = Ok false ->
  (exists evs w' humor delivered,
      Main.process_row env col idx row w = (Ok tt, w')
      /\ trace w' = (trace w ++ evs)%list
      /\ attempts_of evs =
         [Message (handle_name (username_of row)) (subject_of false)
                  (Main.rejection_msg humor) delivered]
      /\ delivered = match dm_fault env (dm_calls w) with None => true | _ => false end
      /\ grid w' !! (idx, c_status) = Some "Rejected")
  /\ (exists evs w' humor delivered,
      Immediate.process_row env col idx row w = (Ok tt, w')
      /\ trace w' = (trace w ++ evs)%list
      /\ attempts_of evs =
         [Message (handle_name (username_of row)) (subject_of false)
                  (Immediate.rejection_msg humor) delivered]
      /\ delivered = match dm_fault env (dm_calls w) with None => true | _ => false end
      /\ grid w' !! (idx, c_status) = Some "Rejected").
Proof.
  intros Hrel Hcs (Hskip & Hpref & Hfmt) Helig.
  rewrite is_eligible_run in Helig. cbn [fst] in Helig.
  split.
  - unfold Main.process_row, Main.row_body. rewrite try_except_run.
    run_with ltac:(rewrite (col_get_some _ _ _ _ Hcs)).
    run_with ltac:(rewrite cell_answers by apply Hrel).
    world_proj. rewrite Hskip.
    fold USERNAME_HEADER DM_PREF_HEADER. fold (username_of row) (dm_pref_of row).
    rewrite Hpref, Hfmt. cbn [negb].
    run_with ltac:(rewrite is_eligible_run).
    world_proj. injection Helig as ->. cbn [negb].
    run_with ltac:(rewrite random_choice_run).
    set (humor := nth _ _ _).
    run_with ltac:(rewrite send_dm_run).
    world_proj.
    destruct (dm_fault env (dm_calls w)) as [e|]; cbv beta iota;
      run_with ltac:(rewrite (col_get_some _ _ _ _ Hcs));
      rewrite update_cell_answers by apply Hrel;
      eexists _, _, humor, _; (split; [reflexivity|]); world_proj;
      (split; [rewrite <- !app_assoc; reflexivity|]);
      (split; [reflexivity|]); (split; [reflexivity|]);
      apply lookup_insert_eq.
  - destruct (accepted_pref_present row Hpref) as [pref Hrow].
    unfold Immediate.process_row, Immediate.row_body. rewrite try_except_run.
    run_with ltac:(rewrite (col_get_some _ _ _ _ Hcs)).
    run_with ltac:(rewrite cell_answers by apply Hrel).
    world_proj. rewrite Hskip.
    fold USERNAME_HEADER DM_PREF_HEADER. fold (username_of row).
    run_with ltac:(rewrite (row_get_some _ _ _ _ Hrow)).
    unfold dm_pref_of in Hpref. rewrite Hrow in Hpref.
    cbn [default from_option id] in Hpref.
    rewrite Hpref, Hfmt. cbn [negb].
    run_with ltac:(rewrite is_eligible_run).
    world_proj. injection Helig as ->. cbn [negb].
    run_with ltac:(rewrite random_choice_run).
    set (humor := nth _ _ _).
    run_with ltac:(rewrite send_dm_run).
    world_proj.
    destruct (dm_fault env (dm_calls w)) as [e|]; cbv beta iota;
      run_with ltac:(rewrite (col_get_some _ _ _ _ Hcs));
      rewrite update_cell_answers by apply Hrel;
      eexists _, _, humor, _; (split; [reflexivity|]); world_proj;
      (split; [rewrite <- !app_assoc; reflexivity|]);
      (split; [reflexivity|]); (split; [reflexivity|]);
      apply lookup_insert_eq.
Qed.

(** ** The code step *)

Lemma attempts_log_delivery_only gap username message attempts success evs :
  forallb is_delivery_event gap = true ->
  attempts_log gap username message attempts success evs ->
  forallb is_delivery_event evs = true.
Proof.
  intros Hgap. induction 1 as [| |a rest e b evs _ IH]; [reflexivity|reflexivity|].
  cbn. rewrite forallb_app, Hgap, IH. reflexivity.
Qed.

Lemma filter_delivery_nil (f : Event -> bool) evs :
  (forall e, is_delivery_event e = true -> f e = false) ->
  forallb is_delivery_event evs = true ->
  List.filter f evs = [].
Proof.
  intros Hf. induction evs as [|e evs IH]; [reflexivity|].
  cbn. intros [He Hevs]%andb_prop. rewrite (Hf e He). exact (IH Hevs).
Qed.

Lemma attempts_log_nonempty gap username message a rest success evs :
  attempts_log gap username message (a :: rest) success evs ->
  attempts_of evs <> [].
Proof. inversion 1; subst; discriminate. Qed.

Section RowEvents.

Variables (username code : string) (idx c_status c_code c_dm : nat).
Variables (empty : bool) (dl : list Event) (status mark : string).
Hypothesis dl_delivery : forallb is_delivery_event dl = true.

(** the events of a row that passes every check *)
Let row_events : list Event :=
  ([Lookup (handle_name username); Generate username code]
   ++ (if empty then [UpdateCell idx c_code code] else [])
   ++ dl
   ++ [UpdateCell idx c_status status; UpdateCell idx c_dm mark])%list.

Lemma row_events_generations : generations row_events = [Generate username code].
Proof.
  unfold generations, row_events. rewrite !List.filter_app.
  rewrite (filter_delivery_nil is_generate dl) by (exact dl_delivery || by intros []).
  destruct empty; reflexivity.
Qed.

Lemma row_events_writes :
  c_status <> c_code -> c_code <> c_dm ->
  writes_to idx c_code row_events
  = if empty then [UpdateCell idx c_code code] else [].
Proof.
  intros H1 H2. unfold writes_to, row_events. rewrite !List.filter_app.
  rewrite (filter_delivery_nil (is_write_to idx c_code) dl)
    by (exact dl_delivery || by intros []).
  assert (E1 : (c_status =? c_code)%nat = false) by (apply Nat.eqb_neq; congruence).
  assert (E2 : (c_dm =? c_code)%nat = false) by (apply Nat.eqb_neq; congruence).
  destruct empty; cbn; rewrite ?Nat.eqb_refl, ?E1, ?E2, ?andb_false_r; reflexivity.
Qed.

Lemma row_events_attempts : attempts_of row_events = attempts_of dl.
Proof. unfold row_events. by apply attempts_of_row_events. Qed.

End RowEvents.

Lemma code_cell_after (g : gmap (nat * nat) string) idx c_status c_code c_dm
  (empty : bool) code status mark :
  c_status <> c_code -> c_code <> c_dm ->
  <[(idx, c_dm) := mark]>
    (<[(idx, c_status) := status]>
       (if empty then <[(idx, c_code) := code]> g else g)) !! (idx, c_code)
  = if empty then Some code else g !! (idx, c_code).
Proof.
  intros H1 H2. rewrite !lookup_insert_ne by congruence.
  destruct empty; [apply lookup_insert_eq|reflexivity].
Qed.

Lemma Main_code_step env col idx row w c_status c_code c_dm :
  reliable env -> columns col c_status c_code c_dm ->
  passes_format idx row w c_status ->
  (is_eligible env (username_of row) w).1 = Ok true ->
  exists evs w',
    Main.process_row env col idx row w = (Ok tt, w')
    /\ trace w' = (trace w ++ evs)%list
    /\ code_step (username_of row) idx c_code w w' evs.
Proof.
  intros Hrel Hcol Hfmt Helig.
  pose proof Hcol as (_ & _ & _ & H1 & _ & H2).
  destruct (Main_eligible_row env col idx row w _ _ _ Hrel Hcol Hfmt Helig)
    as (code & humor & b & dl & w' & Hrun & Hlog & Ht & Hg).
  pose proof (attempts_log_delivery_only [] _ _ _ _ _ eq_refl Hlog) as Hdl.
  eexists _, w'. split; [exact Hrun|]. split; [exact Ht|].
  exists code. split; [by apply row_events_generations|].
  split; [by apply row_events_writes|].
  rewrite Hg. by apply code_cell_after.
Qed.

Lemma Immediate_code_step env col idx row w c_status c_code c_dm :
  reliable env -> columns col c_status c_code c_dm ->
  passes_format idx row w c_status ->
  (is_eligible env (username_of row) w).1 = Ok true ->
  exists evs w',
    Immediate.process_row env col idx row w = (Ok tt, w')
    /\ trace w' = (trace w ++ evs)%list
    /\ code_step (username_of row) idx c_code w w' evs.
Proof.
  intros Hrel Hcol Hfmt Helig.
  pose proof Hcol as (_ & _ & _ & H1 & _ & H2).
  destruct (Immediate_eligible_row env col idx row w _ _ _ Hrel Hcol Hfmt Helig)
    as (code & humor & b & dl & w' & Hrun & Hlog & Ht & Hg).
  pose proof (attempts_log_delivery_only [Sleep 120] _ _ _ _ _ eq_refl Hlog) as Hdl.
  eexists _, w'. split; [exact Hrun|]. split; [exact Ht|].
  exists code. split; [by apply row_events_generations|].
  split; [by apply row_events_writes|].
  rewrite Hg. by apply code_cell_after.
Qed.

(** ** A code that is in the sheet stays there *)

Section Keeps.

Variables (env : Env) (k : nat * nat) (v : string).

Lemma keeps_ret {A} (a : A) : keeps k v (ret a).
Proof. intros w H. exact H. Qed.

Lemma keeps_raise {A} (e : Exn) : keeps k v (@raise A e).
Proof. intros w H. exact H. Qed.

Lemma keeps_log (e : Event) : keeps k v (log e).
Proof. intros w H. exact H. Qed.

Lemma keeps_bind {A B} (m : M A) (f : A -> M B) :
  keeps k v m -> (forall a, keeps k v (f a)) -> keeps k v (m ≫= f).
Proof.
  intros Hm Hf w H. rewrite bind_run. specialize (Hm w H).
  destruct (m w) as [[a|e] w1]; cbn in Hm; [by apply Hf|exact Hm].
Qed.

Lemma keeps_try_except {A} (m : M A) (h : Exn -> M A) :
  keeps k v m -> (forall e, keeps k v (h e)) -> keeps k v (try_except m h).
Proof.
  intros Hm Hh w H. rewrite try_except_run. specialize (Hm w H).
  destruct (m w) as [[a|e] w1]; cbn in Hm; [exact Hm|by apply Hh].
Qed.

Lemma keeps_api_call {A} (m : M A) : keeps k v m -> keeps k v (api_call env m).
Proof.
  intros Hm w H. unfold api_call.
  destruct (api_fault env (api_calls w)); [exact H|]. by apply Hm.
Qed.

Lemma keeps_cell r c : keeps k v (cell env r c).
Proof. apply keeps_api_call. intros w H. exact H. Qed.

Lemma keeps_update_cell r c x : (r, c) <> k -> keeps k v (update_cell env r c x).
Proof.
  intros Hne. apply keeps_api_call. intros w H. cbn.
  by rewrite lookup_insert_ne.
Qed.

Lemma keeps_col_get col key {A} (f : nat -> M A) c :
  col !! key = Some c -> keeps k v (f c) -> keeps k v (col_get col key ≫= f).
Proof.
  intros Hc Hf w H. rewrite bind_run, (col_get_some _ _ _ _ Hc). by apply Hf.
Qed.

Lemma keeps_is_eligible username : keeps k v (is_eligible env username).
Proof. intros w H. rewrite is_eligible_run. exact H. Qed.

Lemma keeps_send_dm username message is_retry :
  keeps k v (send_dm env username message is_retry).
Proof.
  intros w H. rewrite send_dm_run. destruct (dm_fault env (dm_calls w)); exact H.
Qed.

Lemma keeps_generate_code username : keeps k v (generate_code env username).
Proof. intros w H. exact H. Qed.

Lemma keeps_random_choice xs : keeps k v (random_choice env xs).
Proof. intros w H. exact H. Qed.

Lemma keeps_any_send_dm username message attempts :
  keeps k v (Main.any_send_dm env username message attempts).
Proof.
  intros w H. destruct (any_send_dm_run env username message attempts w)
    as (b & evs & w' & -> & Hg & _). cbn. by rewrite Hg.
Qed.

Lemma keeps_send_with_retries username message attempts :
  keeps k v (Immediate.send_with_retries env username message attempts).
Proof.
  intros w H. destruct (send_with_retries_run env username message attempts w)
    as (b & evs & w' & -> & Hg & _). cbn. by rewrite Hg.
Qed.

Lemma keeps_row_get row key : keeps k v (Immediate.row_get row key).
Proof. intros w H. unfold Immediate.row_get. destruct (row !! key); exact H. Qed.

(** the write that is guarded by the cell being empty: when the cell is the
    one that holds [v], the guard fails *)
Lemma keeps_guarded_write col idx c_code code {A} (rest : M A) :
  nonblank v = true -> col !! "code" = Some c_code -> keeps k v rest ->
  keeps k v
    (col_get col "code" ≫= fun c =>
     cell env idx c ≫= fun stored =>
     (if falsy stored
      then col_get col "code" ≫= fun c' => update_cell env idx c' code
      else ret tt) ≫= fun _ => rest).
Proof.
  intros Hv Hc Hrest. apply (keeps_col_get _ _ _ _ Hc).
  intros w H. rewrite bind_run. unfold cell, api_call.
  destruct (api_fault env (api_calls w)); [exact H|]. cbn [grid tick_api].
  destruct (decide ((idx, c_code) = k)) as [<-|Hne].
  - rewrite H. cbn [falsy]. rewrite Hv. cbn [negb]. rewrite bind_run. cbn [ret].
    by apply Hrest.
  - assert (Hk : keeps k v ((if falsy (grid w !! (idx, c_code))
      then col_get col "code" ≫= fun c' => update_cell env idx c' code
      else ret tt) ≫= fun _ => rest)).
    { apply keeps_bind; [|intros _; exact Hrest].
      destruct (falsy _); [|apply keeps_ret].
      apply (keeps_col_get _ _ _ _ Hc). by apply keeps_update_cell. }
    exact (Hk (tick_api w) H).
Qed.

End Keeps.

Ltac keeps_write H :=
  eapply keeps_col_get; [exact H|]; apply keeps_update_cell; congruence.

Ltac keeps_step tac := apply keeps_bind; [tac|intros ?].

Lemma Main_process_row_keeps_code env col idx row c_status c_code c_dm r v :
  columns col c_status c_code c_dm -> nonblank v = true ->
  keeps (r, c_code) v (Main.process_row env col idx row).
Proof.
  intros (Hcs & Hcc & Hcd & H1 & H2 & H3) Hv.
  unfold Main.process_row. apply keeps_try_except.
  - unfold Main.row_body. eapply keeps_col_get; [exact Hcs|].
    keeps_step ltac:(apply keeps_cell).
    destruct (status_in _ _); [apply keeps_ret|].
    destruct (negb (str_in _ _)); [keeps_write Hcs|].
    destruct (negb (startswith _ _)); [keeps_write Hcs|].
    keeps_step ltac:(apply keeps_is_eligible).
    destruct (negb _).
    + keeps_step ltac:(apply keeps_random_choice).
      keeps_step ltac:(apply keeps_send_dm).
      keeps_write Hcs.
    + keeps_step ltac:(apply keeps_generate_code).
      apply keeps_guarded_write with (c_code := c_code); [exact Hv|exact Hcc|].
      keeps_step ltac:(apply keeps_random_choice).
      keeps_step ltac:(apply keeps_any_send_dm).
      eapply keeps_col_get; [exact Hcs|].
      keeps_step ltac:(apply keeps_update_cell; congruence).
      keeps_write Hcd.
  - intros e. keeps_step ltac:(apply keeps_log). keeps_write Hcs.
Qed.

Lemma Immediate_process_row_keeps_code env col idx row c_status c_code c_dm r v :
  columns col c_status c_code c_dm -> nonblank v = true ->
  keeps (r, c_code) v (Immediate.process_row env col idx row).
Proof.
  intros (Hcs & Hcc & Hcd & H1 & H2 & H3) Hv.
  unfold Immediate.process_row. apply keeps_try_except.
  - unfold Immediate.row_body. eapply keeps_col_get; [exact Hcs|].
    keeps_step ltac:(apply keeps_cell).
    destruct (status_in _ _); [apply keeps_ret|].
    keeps_step ltac:(apply keeps_row_get).
    destruct (negb (str_in _ _)); [keeps_write Hcs|].
    destruct (negb (startswith _ _)); [keeps_write Hcs|].
    keeps_step ltac:(apply keeps_is_eligible).
    destruct (negb _).
    + keeps_step ltac:(apply keeps_random_choice).
      keeps_step ltac:(apply keeps_send_dm).
      keeps_write Hcs.
    + keeps_step ltac:(apply keeps_generate_code).
      apply keeps_guarded_write with (c_code := c_code); [exact Hv|exact Hcc|].
      keeps_step ltac:(apply keeps_random_choice).
      keeps_step ltac:(apply keeps_send_with_retries).
      eapply keeps_col_get; [exact Hcs|].
      keeps_step ltac:(apply keeps_update_cell; congruence).
      keeps_write Hcd.
  - intros e. keeps_step ltac:(apply keeps_log). keeps_write Hcs.
Qed.

Lemma Main_process_rows_keeps_code env col records c_status c_code c_dm r v :
  columns col c_status c_code c_dm -> nonblank v = true ->
  forall idx, keeps (r, c_code) v (Main.process_rows env col idx records).
Proof.
  intros Hcol Hv. induction records as [|row rest IH]; intros idx.
  - apply keeps_ret.
  - cbn [Main.process_rows]. apply keeps_bind; [|intros _; apply IH].
    by eapply Main_process_row_keeps_code.
Qed.

Lemma Immediate_process_rows_keeps_code env col records c_status c_code c_dm r v :
  columns col c_status c_code c_dm -> nonblank v = true ->
  forall idx, keeps (r, c_code) v (Immediate.process_rows env col idx records).
Proof.
  intros Hcol Hv. induction records as [|row rest IH]; intros idx.
  - apply keeps_ret.
  - cbn [Immediate.process_rows]. apply keeps_bind; [|intros _; apply IH].
    by eapply Immediate_process_row_keeps_code.
Qed.

(** C3, with its last part amended: in a row that reaches the code step the code is written
    to the code cell exactly when the cell held nothing; the code is
    generated in every such row, also when the cell already holds one, and
    only the write is left out then.  A code that is in the sheet is never
    overwritten: whatever the collaborators answer, the loop over the rows
    leaves every code cell that holds a value as it is.  In both scripts. *)
Theorem C3_code_written_once_generated_always env col c_status c_code c_dm :
  columns col c_status c_code c_dm ->
  (forall idx row w,
      reliable env -> passes_format idx row w c_status ->
      (is_eligible env (username_of row) w).1 = Ok true ->
      (exists evs w',
          Main.process_row env col idx row w = (Ok tt, w')
          /\ trace w' = (trace w ++ evs)%list
          /\ code_step (username_of row) idx c_code w w' evs)
      /\ (exists evs w',
          Immediate.process_row env col idx row w = (Ok tt, w')
          /\ trace w' = (trace w ++ evs)%list
          /\ code_step (username_of row) idx c_code w w' evs))
  /\ (forall records start r v,
        nonblank v = true ->
        keeps (r, c_code) v (Main.process_rows env col start records)
        /\ keeps (r, c_code) v (Immediate.process_rows env col start records)).
Proof.
  intros Hcol. split.
  - intros idx row w Hrel Hfmt Helig. split.
    + by eapply Main_code_step.
    + by eapply Immediate_code_step.
  - intros records start r v Hv. split.
    + by eapply Main_process_rows_keeps_code.
    + by eapply Immediate_process_rows_keeps_code.
Qed.

Lemma C3_counterexample :
  falsy (grid (sample_world [((2, 3), "1A2B3C4D"); ((2, 4), "Failed")]) !! (2, 3)) = false
  /\ generations
       (trace (Main.process_row (sample_env no_fault no_fault) sample_col 2
                 (sample_record "u/testuser123" MAYBE)
                 (sample_world [((2, 3), "1A2B3C4D"); ((2, 4), "Failed")])).2)
     = [Generate "u/testuser123" "10000000"]
  /\ generations
       (trace (Immediate.process_row (sample_env no_fault no_fault) sample_col 2
                 (sample_record "u/testuser123" MAYBE)
                 (sample_world [((2, 3), "1A2B3C4D"); ((2, 4), "Failed")])).2)
     = [Generate "u/testuser123" "10000000"].
Proof. vm_compute. repeat split; reflexivity. Qed.

Lemma C3_code_written_once_generated_always_witness :
  ((exists evs w',
       Main.process_row (sample_env no_fault no_fault) sample_col 2
         (sample_record "u/testuser123" MAYBE)
         (sample_world [((2, 3), "1A2B3C4D"); ((2, 4), "Failed")]) = (Ok tt, w')
       /\ trace w' = ([] ++ evs)%list
       /\ code_step "u/testuser123" 2 3
            (sample_world [((2, 3), "1A2B3C4D"); ((2, 4), "Failed")]) w' evs)
   /\ (exists evs w',
       Immediate.process_row (sample_env no_fault no_fault) sample_col 2
         (sample_record "u/testuser123" MAYBE)
         (sample_world [((2, 3), "1A2B3C4D"); ((2, 4), "Failed")]) = (Ok tt, w')
       /\ trace w' = ([] ++ evs)%list
       /\ code_step "u/testuser123" 2 3
            (sample_world [((2, 3), "1A2B3C4D"); ((2, 4), "Failed")]) w' evs))
  /\ keeps (2, 3) "1A2B3C4D"
       (Main.process_rows (sample_env no_fault no_fault) sample_col 2
          [sample_record "u/testuser123" MAYBE])
  /\ keeps (2, 3) "1A2B3C4D"
       (Immediate.process_rows (sample_env no_fault no_fault) sample_col 2
          [sample_record "u/testuser123" MAYBE]).
Proof.
  destruct (C3_code_written_once_generated_always
              (sample_env no_fault no_fault) sample_col 4 3 5 sample_columns)
    as [Hstep Hkeep].
  split.
  - apply (Hstep 2 (sample_record "u/testuser123" MAYBE)
             (sample_world [((2, 3), "1A2B3C4D"); ((2, 4), "Failed")])).
    + intros n. reflexivity.
    + apply sample_passes_format. vm_compute. reflexivity.
    + vm_compute. reflexivity.
  - apply (Hkeep [sample_record "u/testuser123" MAYBE] 2 2 "1A2B3C4D").
    reflexivity.
Defined.

Lemma C6_ineligible_row_is_rejected_witness :
  (exists evs w' humor delivered,
      Main.process_row (sample_env no_fault no_fault) sample_col 2
        (sample_record "u/newcomer" MAYBE) (sample_world []) = (Ok tt, w')
      /\ trace w' = ([] ++ evs)%list
      /\ attempts_of evs =
         [Message "newcomer" (subject_of false) (Main.rejection_msg humor) delivered]
      /\ delivered = true
      /\ grid w' !! (2, 4) = Some "Rejected")
  /\ (exists evs w' humor delivered,
      Immediate.process_row (sample_env no_fault no_fault) sample_col 2
        (sample_record "u/newcomer" MAYBE) (sample_world []) = (Ok tt, w')
      /\ trace w' = ([] ++ evs)%list
      /\ attempts_of evs =
         [Message "newcomer" (subject_of false) (Immediate.rejection_msg humor) delivered]
      /\ delivered = true
      /\ grid w' !! (2, 4) = Some "Rejected").
Proof.
  apply (C6_ineligible_row_is_rejected (sample_env no_fault no_fault) sample_col 2
           (sample_record "u/newcomer" MAYBE) (sample_world []) 4).
  - intros n. reflexivity.
  - vm_compute. reflexivity.
  - split; [|split]; vm_compute; reflexivity.
  - vm_compute. reflexivity.
Defined.

(** ** The code in the messages *)

Lemma startswith_app p s : startswith (p ++ s) p = true.
Proof.
  induction p as [|c p IH]; [by destruct s|].
  simpl. rewrite Ascii.eqb_refl. exact IH.
Qed.

Lemma str_app_assoc (a b c : string) : (a ++ b) ++ c = a ++ (b ++ c).
Proof.
  induction a as [|x a IH]; [reflexivity|].
  change (String x ((a ++ b) ++ c) = String x (a ++ (b ++ c))). by rewrite IH.
Qed.

Lemma Main_body_opens_with_code code humor is_retry :
  startswith (body_of (Main.acceptance_msg code humor) is_retry) (CODE_LINE ++ code)
  = true.
Proof.
  unfold body_of, Main.acceptance_msg, CODE_LINE.
  destruct is_retry; rewrite ?str_app_assoc;
    rewrite <- (str_app_assoc "🎉 Your Match Code: " code); apply startswith_app.
Qed.

Lemma Immediate_body_opens_with_code code humor is_retry :
  startswith (body_of (Immediate.acceptance_msg code humor) is_retry) (CODE_LINE ++ code)
  = true.
Proof.
  unfold body_of, Immediate.acceptance_msg, CODE_LINE.
  destruct is_retry; rewrite ?str_app_assoc;
    rewrite <- (str_app_assoc "🎉 Your Match Code: " code); apply startswith_app.
Qed.

Lemma fresh_code_of_log gap username message code idx c_status c_code c_dm
  (w w' : World) success dl status mark :
  attempts_of gap = [] -> forallb is_delivery_event gap = true ->
  c_status <> c_code -> c_code <> c_dm ->
  (forall is_retry, startswith (body_of message is_retry) (CODE_LINE ++ code) = true) ->
  attempts_log gap username message (seq 0 MAX_DM_RETRIES) success dl ->
  grid w' =
    <[(idx, c_dm) := mark]>
      (<[(idx, c_status) := status]>
         (if falsy (grid w !! (idx, c_code))
          then <[(idx, c_code) := code]> (grid w) else grid w)) ->
  fresh_code_delivered username idx c_code w w'
    ([Lookup (handle_name username); Generate username code]
     ++ (if falsy (grid w !! (idx, c_code)) then [UpdateCell idx c_code code] else [])
     ++ dl
     ++ [UpdateCell idx c_status status; UpdateCell idx c_dm mark])%list.
Proof.
  intros Hgap Hgap' H1 H2 Hbody Hlog Hg.
  pose proof (attempts_log_delivery_only _ _ _ _ _ _ Hgap' Hlog) as Hdl.
  exists code. split; [by apply row_events_generations|].
  rewrite row_events_attempts. split; [|split].
  - exact (attempts_log_nonempty _ _ _ _ _ _ _ Hlog).
  - intros e [i Hi]%list_elem_of_lookup.
    destruct (attempts_log_marks _ _ _ Hgap _ _ _ _ Hlog i e Hi) as [d ->].
    eexists _, _, d. split; [reflexivity|apply Hbody].
  - rewrite Hg, code_cell_after by assumption.
    destruct (falsy (grid w !! (idx, c_code))).
    + split; [by left|reflexivity].
    + split; [by right|]. by intros [?| ?].
Qed.

(** C10: in a row that passes every check the code of the acceptance
    message is the one generated in that very row: every delivery attempt
    is addressed to the account of the handle and its body opens with the
    fresh code.  The code cell holds the code of the messages afterwards
    exactly when it held nothing before, or already held a code equal to
    the fresh one (a collision); in a row whose cell holds another code the
    messages carry a code that is not the one in the sheet.  In both
    scripts; the spreadsheet is assumed to answer every request of the
    row. *)
Theorem C10_messages_carry_the_fresh_code env col idx row w c_status c_code c_dm :
  reliable env -> columns col c_status c_code c_dm ->
  passes_format idx row w c_status ->
  (is_eligible env (username_of row) w).1 = Ok true ->
  (exists evs w',
      Main.process_row env col idx row w = (Ok tt, w')
      /\ trace w' = (trace w ++ evs)%list
      /\ fresh_code_delivered (username_of row) idx c_code w w' evs)
  /\ (exists evs w',
      Immediate.process_row env col idx row w = (Ok tt, w')
      /\ trace w' = (trace w ++ evs)%list
      /\ fresh_code_delivered (username_of row) idx c_code w w' evs).
Proof.
  intros Hrel Hcol Hfmt Helig.
  pose proof Hcol as (_ & _ & _ & H1 & _ & H2).
  split.
  - destruct (Main_eligible_row env col idx row w _ _ _ Hrel Hcol Hfmt Helig)
      as (code & humor & b & dl & w' & Hrun & Hlog & Ht & Hg).
    eexists _, w'. split; [exact Hrun|]. split; [exact Ht|].
    eapply (fresh_code_of_log []); try eassumption; try reflexivity.
    apply Main_body_opens_with_code.
  - destruct (Immediate_eligible_row env col idx row w _ _ _ Hrel Hcol Hfmt Helig)
      as (code & humor & b & dl & w' & Hrun & Hlog & Ht & Hg).
    eexists _, w'. split; [exact Hrun|]. split; [exact Ht|].
    eapply (fresh_code_of_log [Sleep 120]); try eassumption; try reflexivity.
    apply Immediate_body_opens_with_code.
Qed.

Lemma C10_messages_carry_the_fresh_code_witness :
  (exists evs w',
      Main.process_row (sample_env no_fault no_fault) sample_col 2
        (sample_record "u/testuser123" MAYBE)
        (sample_world [((2, 3), "1A2B3C4D"); ((2, 4), "Failed")]) = (Ok tt, w')
      /\ trace w' = ([] ++ evs)%list
      /\ fresh_code_delivered "u/testuser123" 2 3
           (sample_world [((2, 3), "1A2B3C4D"); ((2, 4), "Failed")]) w' evs)
  /\ (exists evs w',
      Immediate.process_row (sample_env no_fault no_fault) sample_col 2
        (sample_record "u/testuser123" MAYBE)
        (sample_world [((2, 3), "1A2B3C4D"); ((2, 4), "Failed")]) = (Ok tt, w')
      /\ trace w' = ([] ++ evs)%list
      /\ fresh_code_delivered "u/testuser123" 2 3
           (sample_world [((2, 3), "1A2B3C4D"); ((2, 4), "Failed")]) w' evs).
Proof.
  apply (C10_messages_carry_the_fresh_code (sample_env no_fault no_fault) sample_col 2
           (sample_record "u/testuser123" MAYBE)
           (sample_world [((2, 3), "1A2B3C4D"); ((2, 4), "Failed")]) 4 3 5).
  - intros n. reflexivity.
  - exact sample_columns.
  - apply sample_passes_format. vm_compute. reflexivity.
  - vm_compute. reflexivity.
Defined.

Lemma C4_lookup_failure_is_ineligible_witness :
  (is_eligible (sample_env no_fault no_fault) "u/ghost" (sample_world [])).1 = Ok false
  /\ forall username' w',
       exists b, (is_eligible (sample_env no_fault no_fault) username' w').1 = Ok b.
Proof.
  apply (C4_lookup_failure_is_ineligible (sample_env no_fault no_fault) "u/ghost"
           (sample_world []) (RedditError "received 404 HTTP response")).
  reflexivity.
Defined.

(** ** The delay between attempts

    What C7 asks of every pair of neighbouring attempts holds in
    [immediate_response_script.py] and fails in [main.py], in every row
    that passes the checks. *)

Lemma delays_go_sleeps ds l cur :
  delays_go (map Sleep ds ++ l) cur = delays_go l (cur ++ ds).
Proof.
  revert cur. induction ds as [|d ds IH]; intros cur.
  - by rewrite app_nil_r.
  - cbn. rewrite IH, <- app_assoc. reflexivity.
Qed.

Lemma delays_go_silent_l pre l cur :
  forallb is_silent pre = true -> delays_go (pre ++ l) cur = delays_go l cur.
Proof.
  induction pre as [|e pre IH]; [reflexivity|].
  cbn. intros [He Hpre]%andb_prop. destruct e; try discriminate; by apply IH.
Qed.

Lemma delays_go_silent_r l post cur :
  forallb is_silent post = true -> delays_go (l ++ post) cur = delays_go l cur.
Proof.
  intros Hpost. revert cur. induction l as [|e l IH]; intros cur.
  - cbn [app]. rewrite <- (app_nil_r post).
    exact (delays_go_silent_l post [] cur Hpost).
  - cbn. destruct e; by rewrite IH.
Qed.

Lemma delays_of_log ds username message attempts success evs :
  attempts_log (map Sleep ds) username message attempts success evs ->
  forall cur,
    delays_go evs cur =
    match attempts_of evs with
    | [] => []
    | _ :: rest => cur :: repeat ds (length rest)
    end.
Proof.
  assert (Hq : attempts_of (map Sleep ds) = [])
    by (induction ds; [reflexivity|assumption]).
  induction 1 as [| |a rest e b evs _ IH]; intros cur; [reflexivity|reflexivity|].
  cbn. rewrite delays_go_sleeps, IH. cbn.
  rewrite attempts_of_app, Hq. cbn.
  destruct (attempts_of evs); reflexivity.
Qed.

Lemma delays_between_row ds username message attempts success dl pre post :
  attempts_log (map Sleep ds) username message attempts success dl ->
  forallb is_silent pre = true -> forallb is_silent post = true ->
  delays_between (pre ++ dl ++ post)
  = repeat ds (length (attempts_of dl) - 1).
Proof.
  intros Hlog Hpre Hpost. unfold delays_between.
  rewrite delays_go_silent_l, delays_go_silent_r by assumption.
  rewrite (delays_of_log _ _ _ _ _ _ Hlog).
  destruct (attempts_of dl); cbn; [reflexivity|by rewrite Nat.sub_0_r].
Qed.

Lemma silent_code_events (empty : bool) e1 e2 idx c code :
  is_silent e1 = true -> is_silent e2 = true ->
  forallb is_silent ([e1; e2] ++ (if empty then [UpdateCell idx c code] else []))
  = true.
Proof. intros H1 H2. destruct empty; cbn; by rewrite H1, H2. Qed.

(** in [main.py] no two attempts of a row are separated by a sleep *)
Lemma Main_attempts_follow_at_once env col idx row w c_status c_code c_dm :
  reliable env -> columns col c_status c_code c_dm ->
  passes_format idx row w c_status ->
  (is_eligible env (username_of row) w).1 = Ok true ->
  exists evs w',
    Main.process_row env col idx row w = (Ok tt, w')
    /\ trace w' = (trace w ++ evs)%list
    /\ delays_between evs = repeat [] (length (attempts_of evs) - 1).
Proof.
  intros Hrel Hcol Hfmt Helig.
  destruct (Main_eligible_row env col idx row w _ _ _ Hrel Hcol Hfmt Helig)
    as (code & humor & b & dl & w' & Hrun & Hlog & Ht & Hg).
  eexists _, w'. split; [exact Hrun|]. split; [exact Ht|].
  rewrite row_events_attempts, app_assoc.
  apply (delays_between_row [] _ _ _ _ _ _ _ Hlog); [|reflexivity].
  by apply silent_code_events.
Qed.

(** in [immediate_response_script.py] any two neighbouring attempts of a
    row are separated by one sleep of 120 *)
Lemma Immediate_attempts_are_spaced env col idx row w c_status c_code c_dm :
  reliable env -> columns col c_status c_code c_dm ->
  passes_format idx row w c_status ->
  (is_eligible env (username_of row) w).1 = Ok true ->
  exists evs w',
    Immediate.process_row env col idx row w = (Ok tt, w')
    /\ trace w' = (trace w ++ evs)%list
    /\ delays_between evs = repeat [120] (length (attempts_of evs) - 1).
Proof.
  intros Hrel Hcol Hfmt Helig.
  destruct (Immediate_eligible_row env col idx row w _ _ _ Hrel Hcol Hfmt Helig)
    as (code & humor & b & dl & w' & Hrun & Hlog & Ht & Hg).
  eexists _, w'. split; [exact Hrun|]. split; [exact Ht|].
  rewrite row_events_attempts, app_assoc.
  apply (delays_between_row [120] _ _ _ _ _ _ _ Hlog); [|reflexivity].
  by apply silent_code_events.
Qed.

(** in both scripts the first attempt of a row is an original and every
    later one a retry *)
Lemma attempts_marked gap username message success dl i e :
  attempts_of gap = [] ->
  attempts_log gap username message (seq 0 MAX_DM_RETRIES) success dl ->
  attempts_of dl !! i = Some e ->
  exists delivered,
    e = Message (handle_name username) (subject_of (0 <? i)%nat)
                (body_of message (0 <? i)%nat) delivered.
Proof.
  intros Hgap Hlog Hi.
  exact (attempts_log_marks _ _ _ Hgap _ _ _ _ Hlog i e Hi).
Qed.

(** ** The account name of a handle

    With the prefix in lower case the name is what C8 says: the text
    behind the prefix, without the whitespace around the handle. *)



Lemma split_go_prefix_free s :
  prefix_free s = true -> split_go "u/" 0 s = (s, []).
Proof.
  induction s as [|c s IH]; [reflexivity|].
  cbn [prefix_free split_go]. intros [Hc Hs]%andb_prop.
  apply negb_true_iff in Hc. rewrite Hc, (IH Hs). reflexivity.
Qed.












(** ** The Column Resolver

    When every required name is in the header row as it is, up to the
    whitespace around it, both scripts return the positions of the headers
    and create nothing. *)

Lemma row_values_answers env r w :
  api_fault env (api_calls w) = None ->
  row_values env r w
  = (Ok (cells_of_row (grid w) r (last_col_of_row r (grid w))), tick_api w).
Proof. intros H. unfold row_values, api_call. rewrite H. reflexivity. Qed.

Lemma index_of_elem x (xs : list string) : x ∈ xs -> exists i, index_of x xs = Some i.
Proof.
  induction 1 as [x xs|x y xs _ [i IH]]; cbn [index_of].
  - rewrite String.eqb_refl. eauto.
  - destruct (String.eqb y x); [eauto|]. rewrite IH. cbn. eauto.
Qed.

Lemma Main_setup_sheet_resolves env w :
  api_fault env (api_calls w) = None ->
  Forall (fun name => name ∈ header_row w) (map snd Main.COLUMN_MAP) ->
  exists col,
    Main.setup_sheet env w = (Ok col, tick_api w)
    /\ resolves (header_row w) Main.COLUMN_MAP col.
Proof.
  intros Hapi Hall. cbn [map snd Main.COLUMN_MAP] in Hall.
  repeat match goal with
         | H : Forall _ (_ :: _) |- _ => apply Forall_cons in H as [?%index_of_elem H]
         end.
  repeat match goal with H : exists i, _ |- _ => destruct H as [? H] end.
  unfold Main.setup_sheet. run_with ltac:(rewrite row_values_answers by exact Hapi).
  fold (header_row w). unfold Main.COLUMN_MAP at 1. cbn [Main.find_existing].
  repeat match goal with H : index_of _ _ = Some _ |- _ => rewrite H end.
  cbv beta iota. rewrite bind_run. unfold ret at 1. cbv beta iota.
  unfold Main.COLUMN_MAP at 1. cbn [Main.final_indices].
  repeat match goal with H : index_of _ _ = Some _ |- _ => rewrite H end.
  eexists. split; [reflexivity|].
  unfold resolves, Main.COLUMN_MAP.
  repeat (apply Forall_cons; split;
          [eexists; split; [eassumption|by simplify_map_eq]|]).
  constructor.
Qed.

Lemma dict_mem_set {V} k k' (v : V) d :
  Immediate.dict_mem k (Immediate.dict_set k' v d)
  = String.eqb k' k || Immediate.dict_mem k d.
Proof.
  unfold Immediate.dict_mem. induction d as [|[k0 v0] d IH].
  - cbn. by destruct (String.eqb k' k).
  - cbn [Immediate.dict_set Immediate.dict_get].
    destruct (String.eqb k0 k') eqn:E0.
    + apply String.eqb_eq in E0 as ->. cbn [Immediate.dict_get].
      destruct (String.eqb k' k); reflexivity.
    + cbn [Immediate.dict_get]. destruct (String.eqb k0 k) eqn:E1.
      * by rewrite orb_true_r.
      * exact IH.
Qed.

Lemma dict_set_values {V} (P : V -> Prop) k (v : V) d :
  P v -> Forall (fun kv => P kv.2) d ->
  Forall (fun kv => P kv.2) (Immediate.dict_set k v d).
Proof.
  intros Hv. induction 1 as [|[k0 v0] d H0 Hd IH]; cbn [Immediate.dict_set].
  - by repeat constructor.
  - destruct (String.eqb k0 k); constructor; assumption.
Qed.

Lemma normalize_headers_mem (hs : list string) h :
  h ∈ hs -> Immediate.dict_mem (lower (strip h)) (Immediate.normalize_headers hs) = true.
Proof.
  unfold Immediate.normalize_headers. generalize (@nil (string * string)).
  intros d Hin. revert d. induction Hin as [h hs|h h' hs _ IH]; intros d; cbn [foldl].
  - assert (Hkeep : forall (l : list string) d',
              Immediate.dict_mem (lower (strip h)) d' = true ->
              Immediate.dict_mem (lower (strip h))
                (foldl (fun d0 h0 => Immediate.dict_set (lower (strip h0)) h0 d0) d' l)
              = true).
    { induction l as [|x l IHl]; intros d' Hd'; [exact Hd'|].
      cbn [foldl]. apply IHl. rewrite dict_mem_set, Hd'. apply orb_true_r. }
    apply Hkeep. rewrite dict_mem_set, String.eqb_refl. reflexivity.
  - apply IH.
Qed.

Lemma normalize_headers_values (hs : list string) :
  Forall (fun kv => kv.2 ∈ hs) (Immediate.normalize_headers hs).
Proof.
  unfold Immediate.normalize_headers.
  assert (Hgen : forall (l : list string) d,
            Forall (fun h => h ∈ hs) l -> Forall (fun kv : string * string => kv.2 ∈ hs) d ->
            Forall (fun kv : string * string => kv.2 ∈ hs)
              (foldl (fun d0 h0 => Immediate.dict_set (lower (strip h0)) h0 d0) d l)).
  { induction l as [|x l IHl]; intros d Hl Hd; [exact Hd|].
    apply Forall_cons in Hl as [Hx Hl]. cbn [foldl]. apply IHl; [exact Hl|].
    by apply (dict_set_values (fun v => v ∈ hs)). }
  apply Hgen; [|constructor]. apply Forall_forall. auto.
Qed.

Lemma Immediate_find_existing_runs headers items col w :
  Forall (fun kv : string * string => kv.2 ∈ headers) items ->
  exists col', Immediate.find_existing headers items col w = (Ok col', w).
Proof.
  intros Hitems. revert col.
  induction Hitems as [|[norm orig] items Hin _ IH]; intros col.
  - eexists. reflexivity.
  - cbn [Immediate.find_existing].
    destruct (Immediate.dict_get norm Immediate.required_normalized); [|apply IH].
    cbn [snd] in Hin. destruct (index_of_elem _ _ Hin) as [i ->]. apply IH.
Qed.

Lemma Immediate_setup_sheet_resolves env w :
  api_fault env (api_calls w) = None ->
  Forall (fun name => name ∈ header_row w) (map snd Immediate.REQUIRED_COLUMNS) ->
  exists col,
    Immediate.setup_sheet env w = (Ok col, tick_api w)
    /\ resolves (header_row w) Immediate.REQUIRED_COLUMNS col.
Proof.
  intros Hapi Hall.
  assert (Hnew : List.filter
            (fun c => negb (Immediate.dict_mem (lower (strip c))
                              (Immediate.normalize_headers (header_row w))))
            (map snd Immediate.REQUIRED_COLUMNS) = []).
  { induction Hall as [|name names Hname _ IH]; [reflexivity|].
    cbn [List.filter]. by rewrite (normalize_headers_mem _ _ Hname). }
  cbn [map snd Immediate.REQUIRED_COLUMNS] in Hall.
  repeat match goal with
         | H : Forall _ (_ :: _) |- _ => apply Forall_cons in H as [?%index_of_elem H]
         end.
  repeat match goal with H : exists i, _ |- _ => destruct H as [? H] end.
  unfold Immediate.setup_sheet.
  run_with ltac:(rewrite row_values_answers by exact Hapi).
  fold (header_row w).
  destruct (Immediate_find_existing_runs (header_row w)
              (Immediate.normalize_headers (header_row w)) ∅ (tick_api w)
              (normalize_headers_values _)) as [col0 Hfind].
  rewrite bind_run, Hfind. cbv beta iota. rewrite Hnew.
  rewrite bind_run. unfold ret at 1. cbv beta iota.
  unfold Immediate.REQUIRED_COLUMNS at 1. cbn [Immediate.final_verification].
  repeat match goal with H : index_of _ _ = Some _ |- _ => rewrite H end.
  eexists. split; [reflexivity|].
  unfold resolves, Immediate.REQUIRED_COLUMNS.
  repeat (apply Forall_cons; split;
          [eexists; split; [eassumption|by simplify_map_eq]|]).
  constructor.
Qed.

(** ** Faults in a row

    A fault in the body of a row is caught and the row is marked, as C9
    says, as long as the write of the handler answers; when that write
    raises too, the exception leaves the row and the loop. *)

Lemma Main_row_fault_is_marked env col idx row w e w1 c_status :
  col !! "status" = Some c_status ->
  Main.row_body env col idx row w = (Raise e, w1) ->
  api_fault env (api_calls w1) = None ->
  exists w',
    Main.process_row env col idx row w = (Ok tt, w')
    /\ grid w' !! (idx, c_status) = Some "Error".
Proof.
  intros Hcs Hbody Hapi. unfold Main.process_row.
  rewrite try_except_run, Hbody. cbv beta iota.
  rewrite bind_run. unfold print at 1, log at 1. cbv beta iota.
  run_with ltac:(rewrite (col_get_some _ _ _ _ Hcs)).
  rewrite update_cell_answers by exact Hapi.
  eexists. split; [reflexivity|]. apply lookup_insert_eq.
Qed.

Lemma Immediate_row_fault_is_marked env col idx row w e w1 c_status :
  col !! "status" = Some c_status ->
  Immediate.row_body env col idx row w = (Raise e, w1) ->
  api_fault env (api_calls w1) = None ->
  exists w',
    Immediate.process_row env col idx row w = (Ok tt, w')
    /\ grid w' !! (idx, c_status) = Some "Error".
Proof.
  intros Hcs Hbody Hapi. unfold Immediate.process_row.
  rewrite try_except_run, Hbody. cbv beta iota.
  rewrite bind_run. unfold print at 1, log at 1. cbv beta iota.
  run_with ltac:(rewrite (col_get_some _ _ _ _ Hcs)).
  rewrite update_cell_answers by exact Hapi.
  eexists. split; [reflexivity|]. apply lookup_insert_eq.
Qed.

Lemma Main_row_fault_escapes env col idx row w e e' w1 c_status :
  col !! "status" = Some c_status ->
  Main.row_body env col idx row w = (Raise e, w1) ->
  api_fault env (api_calls w1) = Some e' ->
  forall rest,
  exists w',
    Main.process_rows env col idx (row :: rest) w = (Raise e', w')
    /\ grid w' = grid w1.
Proof.
  intros Hcs Hbody Hapi rest. cbn [Main.process_rows]. unfold Main.process_row.
  rewrite bind_run, try_except_run, Hbody. cbv beta iota.
  rewrite bind_run. unfold print at 1, log at 1. cbv beta iota.
  run_with ltac:(rewrite (col_get_some _ _ _ _ Hcs)).
  rewrite (update_cell_raises _ _ _ _ _ e') by exact Hapi.
  eexists. split; reflexivity.
Qed.

Lemma Immediate_row_fault_escapes env col idx row w e e' w1 c_status :
  col !! "status" = Some c_status ->
  Immediate.row_body env col idx row w = (Raise e, w1) ->
  api_fault env (api_calls w1) = Some e' ->
  forall rest,
  exists w',
    Immediate.process_rows env col idx (row :: rest) w = (Raise e', w')
    /\ grid w' = grid w1.
Proof.
  intros Hcs Hbody Hapi rest. cbn [Immediate.process_rows]. unfold Immediate.process_row.
  rewrite bind_run, try_except_run, Hbody. cbv beta iota.
  rewrite bind_run. unfold print at 1, log at 1. cbv beta iota.
  run_with ltac:(rewrite (col_get_some _ _ _ _ Hcs)).
  rewrite (update_cell_raises _ _ _ _ _ e') by exact Hapi.
  eexists. split; reflexivity.
Qed.

(** ** Where the scripts fall short *)

(** C7: in [main.py] a failed attempt is followed at once by the next one.
    With a platform that rejects the first message request, the row of an
    eligible participant sees an original and then a retry with no sleep
    between them, where [immediate_response_script.py] sleeps 120 between
    the two. *)
Theorem C7_main_retries_without_delay :
  let env := sample_env no_fault first_dm_fails in
  let row := sample_record "u/testuser123" MAYBE in
  let main := trace (Main.process_row env sample_col 2 row (sample_world [])).2 in
  let immediate := trace (Immediate.process_row env sample_col 2 row (sample_world [])).2 in
  map is_delivered (attempts_of main) = [false; true]
  /\ map is_delivered (attempts_of immediate) = [false; true]
  /\ delays_between main = [[]]
  /\ delays_between immediate = [[120]].
Proof. vm_compute. repeat split; reflexivity. Qed.

(** C8: a handle with the prefix in upper case passes the format check, but
    the prefix is not removed from it: the account that is looked up is the
    whole handle, the lookup fails, and an account that is old enough is
    found ineligible. *)
Theorem C8_upper_case_prefix_is_not_stripped :
  let env := sample_env no_fault no_fault in
  startswith (lower "U/testuser123") "u/" = true
  /\ handle_name "U/testuser123" = "U/testuser123"
  /\ handle_name " u/testuser123 " = "testuser123"
  /\ is_eligible env "U/testuser123" (sample_world [])
     = (Ok false, record (Lookup "U/testuser123") (tick_clock (sample_world [])))
  /\ is_eligible env "u/testuser123" (sample_world [])
     = (Ok true, record (Lookup "testuser123") (tick_clock (sample_world []))).
Proof. vm_compute. repeat split; reflexivity. Qed.

(** C5: [immediate_response_script.py] finds the header of the code column
    when it is spelled in lower case, creates no column for it, and then
    fails its final verification, which compares the exact name.  The
    padded status header is no obstacle.  [main.py] on the same sheet
    appends a second code column and returns a complete map. *)
Theorem C5_case_variant_header_aborts_setup :
  let env := sample_env no_fault no_fault in
  Immediate.setup_sheet env varied_headers
  = (Raise (RuntimeError "Missing critical column: 'Code'"), tick_api varied_headers)
  /\ (Immediate.process_responses env varied_headers).1 = Ok tt
  /\ trace (Immediate.process_responses env varied_headers).2
     = [Printed "Sheet setup failed: Missing critical column: 'Code'"]
  /\ (Main.setup_sheet env varied_headers).1
     = Ok (list_to_map [("username", 1); ("dm_pref", 2); ("code", 6); ("status", 4);
                        ("dm_status", 5)])
  /\ trace (Main.setup_sheet env varied_headers).2
     = [AddCols 1; UpdateRange 11 6 ["Code"]].
Proof. vm_compute. repeat split; reflexivity. Qed.

(** C9: the handler of a row writes the status Error with a request that
    is not protected.  When the read of the status of row 2 and the write
    of the handler both fail, [main.py] ends the run as a fatal error and
    [immediate_response_script.py] ends with the exception: row 3 is never
    processed and row 2 is not marked.  When only the read fails, row 2 is
    marked and row 3 is processed. *)
Theorem C9_failing_handler_ends_the_run :
  let both := sample_env (quota_at [3; 4]) no_fault in
  let one := sample_env (quota_at [3]) no_fault in
  (Main.process_responses both two_declined).1 = Ok tt
  /\ statuses (Main.process_responses both two_declined).2 = [None; None]
  /\ List.last (trace (Main.process_responses both two_declined).2) (Sleep 0)
     = Printed "Fatal error: Quota exceeded"
  /\ (Immediate.process_responses both two_declined).1
     = Raise (APIError "Quota exceeded")
  /\ statuses (Immediate.process_responses both two_declined).2 = [None; None]
  /\ statuses (Main.process_responses one two_declined).2
     = [Some "Error"; Some "Opted Out"]
  /\ statuses (Immediate.process_responses one two_declined).2
     = [Some "Error"; Some "Opted Out"].
Proof. vm_compute. repeat split; reflexivity. Qed.

(** * Further properties of the scripts *)

(** ** Rows that end before the eligibility check *)

Lemma Main_declined_row env col idx row w c_status :
  reliable env -> col !! "status" = Some c_status ->
  status_in (grid w !! (idx, c_status)) SKIP_STATUSES = false ->
  str_in (dm_pref_of row) ACCEPTED_PREFS = false ->
  Main.process_row env col idx row w
  = (Ok tt, status_written idx c_status "Opted Out" w).
Proof.
  intros Hrel Hcs Hskip Hpref.
  unfold Main.process_row, Main.row_body. rewrite try_except_run.
  run_with ltac:(rewrite (col_get_some _ _ _ _ Hcs)).
  run_with ltac:(rewrite cell_answers by apply Hrel).
  world_proj. rewrite Hskip.
  fold USERNAME_HEADER DM_PREF_HEADER. fold (username_of row) (dm_pref_of row).
  rewrite Hpref. cbn [negb].
  run_with ltac:(rewrite (col_get_some _ _ _ _ Hcs)).
  rewrite update_cell_answers by apply Hrel. reflexivity.
Qed.

(** X1: a row that is not skipped and whose preference is not one of the
    two accepted answers is marked Opted Out, whatever its handle: the
    status cell is read and written and nothing else happens, no lookup, no
    code, no message.  [immediate_response_script.py] reads the preference
    with [row[...]] and needs the record to have the key. *)
Theorem X1_declined_row_is_opted_out env col idx row w c_status :
  reliable env -> col !! "status" = Some c_status ->
  status_in (grid w !! (idx, c_status)) SKIP_STATUSES = false ->
  str_in (dm_pref_of row) ACCEPTED_PREFS = false ->
  Main.process_row env col idx row w
  = (Ok tt, status_written idx c_status "Opted Out" w)
  /\ (is_Some (row !! DM_PREF_HEADER) ->
      Immediate.process_row env col idx row w
      = (Ok tt, status_written idx c_status "Opted Out" w)).
Proof.
  intros Hrel Hcs Hskip Hpref. split.
  - by apply Main_declined_row.
  - intros [pref Hrow].
    unfold Immediate.process_row, Immediate.row_body. rewrite try_except_run.
    run_with ltac:(rewrite (col_get_some _ _ _ _ Hcs)).
    run_with ltac:(rewrite cell_answers by apply Hrel).
    world_proj. rewrite Hskip.
    run_with ltac:(rewrite (row_get_some _ _ _ _ Hrow)).
    unfold dm_pref_of in Hpref. rewrite Hrow in Hpref.
    cbn [default from_option id] in Hpref. rewrite Hpref. cbn [negb].
    run_with ltac:(rewrite (col_get_some _ _ _ _ Hcs)).
    rewrite update_cell_answers by apply Hrel. reflexivity.
Qed.

Lemma X1_declined_row_is_opted_out_witness :
  Main.process_row (sample_env no_fault no_fault) sample_col 2
    (sample_record "u/testuser123" "No thanks") (sample_world [])
  = (Ok tt, status_written 2 4 "Opted Out" (sample_world []))
  /\ Immediate.process_row (sample_env no_fault no_fault) sample_col 2
       (sample_record "u/testuser123" "No thanks") (sample_world [])
     = (Ok tt, status_written 2 4 "Opted Out" (sample_world [])).
Proof.
  destruct (X1_declined_row_is_opted_out (sample_env no_fault no_fault) sample_col 2
              (sample_record "u/testuser123" "No thanks") (sample_world []) 4)
    as [Hmain Himm].
  - intros n. reflexivity.
  - vm_compute. reflexivity.
  - vm_compute. reflexivity.
  - vm_compute. reflexivity.
  - split; [exact Hmain|]. apply Himm. eexists. vm_compute. reflexivity.
Defined.

(** X2: a row that is not skipped, whose preference is accepted and whose
    handle does not begin with the prefix in either letter case is marked
    Invalid Format, in both scripts: the status cell is read and written
    and nothing else happens; the Eligibility Checker is not asked and no
    code is generated. *)
Theorem X2_handle_without_prefix_is_invalid env col idx row w c_status :
  reliable env -> col !! "status" = Some c_status ->
  status_in (grid w !! (idx, c_status)) SKIP_STATUSES = false ->
  str_in (dm_pref_of row) ACCEPTED_PREFS = true ->
  startswith (lower (username_of row)) "u/" = false ->
  Main.process_row env col idx row w
  = (Ok tt, status_written idx c_status "Invalid Format" w)
  /\ Immediate.process_row env col idx row w
     = (Ok tt, status_written idx c_status "Invalid Format" w).
Proof.
  intros Hrel Hcs Hskip Hpref Hfmt. split.
  - unfold Main.process_row, Main.row_body. rewrite try_except_run.
    run_with ltac:(rewrite (col_get_some _ _ _ _ Hcs)).
    run_with ltac:(rewrite cell_answers by apply Hrel).
    world_proj. rewrite Hskip.
    fold USERNAME_HEADER DM_PREF_HEADER. fold (username_of row) (dm_pref_of row).
    rewrite Hpref, Hfmt. cbn [negb].
    run_with ltac:(rewrite (col_get_some _ _ _ _ Hcs)).
    rewrite update_cell_answers by apply Hrel. reflexivity.
  - destruct (accepted_pref_present row Hpref) as [pref Hrow].
    unfold Immediate.process_row, Immediate.row_body. rewrite try_except_run.
    run_with ltac:(rewrite (col_get_some _ _ _ _ Hcs)).
    run_with ltac:(rewrite cell_answers by apply Hrel).
    world_proj. rewrite Hskip.
    fold USERNAME_HEADER DM_PREF_HEADER. fold (username_of row).
    run_with ltac:(rewrite (row_get_some _ _ _ _ Hrow)).
    unfold dm_pref_of in Hpref. rewrite Hrow in Hpref.
    cbn [default from_option id] in Hpref. rewrite Hpref, Hfmt. cbn [negb].
    run_with ltac:(rewrite (col_get_some _ _ _ _ Hcs)).
    rewrite update_cell_answers by apply Hrel. reflexivity.
Qed.

Lemma X2_handle_without_prefix_is_invalid_witness :
  Main.process_row (sample_env no_fault no_fault) sample_col 2
    (sample_record "reddit_user_no_prefix" MAYBE) (sample_world [])
  = (Ok tt, status_written 2 4 "Invalid Format" (sample_world []))
  /\ Immediate.process_row (sample_env no_fault no_fault) sample_col 2
       (sample_record "reddit_user_no_prefix" MAYBE) (sample_world [])
     = (Ok tt, status_written 2 4 "Invalid Format" (sample_world [])).
Proof.
  apply (X2_handle_without_prefix_is_invalid (sample_env no_fault no_fault) sample_col 2
           (sample_record "reddit_user_no_prefix" MAYBE) (sample_world []) 4).
  - intros n. reflexivity.
  - vm_compute. reflexivity.
  - vm_compute. reflexivity.
  - vm_compute. reflexivity.
  - vm_compute. reflexivity.
Defined.

(** X3: a record without the key of the preference column is treated
    differently by the two scripts.  [main.py] reads it with [row.get] and
    a default, finds no accepted answer and marks the row Opted Out;
    [immediate_response_script.py] reads it with [row[...]], the KeyError is
    caught by the handler of the row, logged, and the row is marked
    Error. *)
Theorem X3_record_without_preference_key env col idx row w c_status :
  reliable env -> col !! "status" = Some c_status ->
  status_in (grid w !! (idx, c_status)) SKIP_STATUSES = false ->
  row !! DM_PREF_HEADER = None ->
  Main.process_row env col idx row w
  = (Ok tt, status_written idx c_status "Opted Out" w)
  /\ Immediate.process_row env col idx row w
     = (Ok tt,
        status_written idx c_status "Error"
          (record (Printed ("Error processing row " ++ pretty idx ++ ": "
                            ++ exn_str (KeyError DM_PREF_HEADER))) w)).
Proof.
  intros Hrel Hcs Hskip Hrow. split.
  - apply Main_declined_row; try assumption.
    unfold dm_pref_of. rewrite Hrow. reflexivity.
  - unfold Immediate.process_row, Immediate.row_body. rewrite try_except_run.
    run_with ltac:(rewrite (col_get_some _ _ _ _ Hcs)).
    run_with ltac:(rewrite cell_answers by apply Hrel).
    world_proj. rewrite Hskip.
    rewrite bind_run. unfold Immediate.row_get at 1.
    fold DM_PREF_HEADER. rewrite Hrow. unfold raise at 1. cbv beta iota.
    rewrite bind_run. unfold print at 1, log at 1. cbv beta iota.
    run_with ltac:(rewrite (col_get_some _ _ _ _ Hcs)).
    rewrite update_cell_answers by apply Hrel. reflexivity.
Qed.

Lemma X3_record_without_preference_key_witness :
  Main.process_row (sample_env no_fault no_fault) sample_col 2
    (list_to_map [(USERNAME_HEADER, "u/testuser123")]) (sample_world [])
  = (Ok tt, status_written 2 4 "Opted Out" (sample_world []))
  /\ Immediate.process_row (sample_env no_fault no_fault) sample_col 2
       (list_to_map [(USERNAME_HEADER, "u/testuser123")]) (sample_world [])
     = (Ok tt,
        status_written 2 4 "Error"
          (record (Printed ("Error processing row " ++ pretty 2 ++ ": "
                            ++ exn_str (KeyError DM_PREF_HEADER)))
             (sample_world []))).
Proof.
  apply (X3_record_without_preference_key (sample_env no_fault no_fault) sample_col 2
           (list_to_map [(USERNAME_HEADER, "u/testuser123")]) (sample_world []) 4).
  - intros n. reflexivity.
  - vm_compute. reflexivity.
  - vm_compute. reflexivity.
  - vm_compute. reflexivity.
Defined.

(** ** Message Delivery and the Code Generator on their own *)

Lemma startswith_refl s : startswith s s = true.
Proof.
  induction s as [|c s IH]; [reflexivity|].
  cbn [startswith]. by rewrite Ascii.eqb_refl.
Qed.

(** X4: [send_dm] never raises.  It makes one message request, to the
    account name of the handle, and returns whether the platform took it;
    it sleeps 20 after a delivered message and not at all after a failed
    one; it leaves the sheet alone; the body of a retry begins with the
    body of the original. *)
Theorem X4_send_dm_reports_delivery env username message is_retry w :
  exists delivered evs w',
    send_dm env username message is_retry w = (Ok delivered, w')
    /\ (delivered = true <-> dm_fault env (dm_calls w) = None)
    /\ grid w' = grid w
    /\ dm_calls w' = S (dm_calls w)
    /\ trace w' = (trace w ++ evs)%list
    /\ attempts_of evs
       = [Message (handle_name username) (subject_of is_retry)
                  (body_of message is_retry) delivered]
    /\ List.filter is_sleep evs = (if delivered then [Sleep 20] else [])
    /\ startswith (body_of message is_retry) message = true.
Proof.
  assert (Hbody : startswith (body_of message is_retry) message = true).
  { unfold body_of. destruct is_retry; [apply startswith_app|apply startswith_refl]. }
  rewrite send_dm_run. destruct (dm_fault env (dm_calls w)) as [e|].
  - eexists false, _, _. split; [reflexivity|]. split; [split; discriminate|].
    split; [reflexivity|]. split; [reflexivity|]. world_proj.
    split; [rewrite <- app_assoc; reflexivity|]. by repeat split.
  - eexists true, _, _. split; [reflexivity|]. split; [by split|].
    split; [reflexivity|]. split; [reflexivity|]. world_proj.
    split; [rewrite <- app_assoc; reflexivity|]. by repeat split.
Qed.

Lemma length_take_str n s : String.length (take_str n s) = Nat.min n (String.length s).
Proof.
  unfold take_str. revert n. induction s as [|c s IH]; intros [|n]; try reflexivity.
  cbn [String.substring String.length Nat.min]. by rewrite IH.
Qed.

Lemma length_upper s : String.length (upper s) = String.length s.
Proof. induction s as [|c s IH]; [reflexivity|]. cbn. by rewrite IH. Qed.

Lemma all_chars_take_str P n s :
  all_chars P s = true -> all_chars P (take_str n s) = true.
Proof.
  unfold take_str. revert n. induction s as [|c s IH]; intros [|n] H; try reflexivity.
  cbn [String.substring all_chars] in H |- *. apply andb_prop in H as [-> H].
  by apply IH.
Qed.

Lemma upper_char_hex c : is_hex_lower c = true -> is_hex_upper (upper_char c) = true.
Proof.
  destruct c as [[] [] [] [] [] [] [] []]; intros H; try discriminate H; reflexivity.
Qed.

Lemma all_chars_upper_hex s :
  all_chars is_hex_lower s = true -> all_chars is_hex_upper (upper s) = true.
Proof.
  induction s as [|c s IH]; [reflexivity|].
  cbn [all_chars upper]. intros [Hc Hs]%andb_prop.
  by rewrite (upper_char_hex c Hc), (IH Hs).
Qed.

(** X5: with a digest of 64 hexadecimal digits, [generate_code] returns a
    code of exactly 8 characters, each a digit or a letter A to F, and does
    nothing but read the clock: no cell is written and no request is
    made. *)
Theorem X5_code_is_eight_upper_hex_digits env username w :
  hex_digest env ->
  exists code,
    generate_code env username w
    = (Ok code, record (Generate username code) (tick_clock w))
    /\ String.length code = 8
    /\ all_chars is_hex_upper code = true.
Proof.
  intros Hhex. rewrite generate_code_run. cbv zeta.
  destruct (Hhex (username ++ str_datetime env (clock env (clock_reads w) + tz_offset env)%Z))
    as [Hlen Hchars].
  eexists. split; [reflexivity|]. split.
  - rewrite length_upper, length_take_str, Hlen. reflexivity.
  - apply all_chars_upper_hex. by apply all_chars_take_str.
Qed.

Lemma X5_code_is_eight_upper_hex_digits_witness :
  exists code,
    generate_code digest_env "u/testuser123" (sample_world [])
    = (Ok code, record (Generate "u/testuser123" code) (tick_clock (sample_world [])))
    /\ String.length code = 8
    /\ all_chars is_hex_upper code = true.
Proof.
  apply (X5_code_is_eight_upper_hex_digits digest_env "u/testuser123" (sample_world [])).
  intros s. split; reflexivity.
Defined.

(** ** The age of an account *)



(** ** The whole run *)

(** X9: [process_responses] of [main.py] never ends with an exception:
    whatever the collaborators do, the run returns normally, since every
    fault that leaves the row loop or the setup is caught and logged as a
    fatal error. *)
Theorem X9_main_run_never_raises env w :
  (Main.process_responses env w).1 = Ok tt.
Proof.
  unfold Main.process_responses. rewrite bind_run. unfold now at 1. cbv beta iota.
  rewrite bind_run. unfold print at 1, log at 1. cbv beta iota.
  rewrite try_except_run.
  match goal with |- context [match ?m ?W with _ => _ end] =>
    destruct (m W) as [[[]|e] w1] end; reflexivity.
Qed.

(** ** Cells that a run leaves alone *)

Section Untouched.

Variables (env : Env) (k : nat * nat).

Lemma untouched_ret {A} (a : A) : untouched k (ret a).
Proof. intros w. reflexivity. Qed.

Lemma untouched_raise {A} (e : Exn) : untouched k (@raise A e).
Proof. intros w. reflexivity. Qed.

Lemma untouched_log (e : Event) : untouched k (log e).
Proof. intros w. reflexivity. Qed.

Lemma untouched_bind {A B} (m : M A) (f : A -> M B) :
  untouched k m -> (forall a, untouched k (f a)) -> untouched k (m ≫= f).
Proof.
  intros Hm Hf w. rewrite bind_run. specialize (Hm w).
  destruct (m w) as [[a|e] w1]; cbn [snd] in Hm; [by rewrite Hf|exact Hm].
Qed.

Lemma untouched_try_except {A} (m : M A) (h : Exn -> M A) :
  untouched k m -> (forall e, untouched k (h e)) -> untouched k (try_except m h).
Proof.
  intros Hm Hh w. rewrite try_except_run. specialize (Hm w).
  destruct (m w) as [[a|e] w1]; cbn [snd] in Hm; [exact Hm|by rewrite Hh].
Qed.

Lemma untouched_api_call {A} (m : M A) : untouched k m -> untouched k (api_call env m).
Proof.
  intros Hm w. unfold api_call.
  destruct (api_fault env (api_calls w)); [reflexivity|]. by rewrite Hm.
Qed.

Lemma untouched_cell r c : untouched k (cell env r c).
Proof. apply untouched_api_call. intros w. reflexivity. Qed.

Lemma untouched_update_cell r c x : (r, c) <> k -> untouched k (update_cell env r c x).
Proof.
  intros Hne. apply untouched_api_call. intros w. cbn. by rewrite lookup_insert_ne.
Qed.

Lemma untouched_row_values r : untouched k (row_values env r).
Proof. apply untouched_api_call. intros w. reflexivity. Qed.

Lemma untouched_add_cols n : untouched k (add_cols env n).
Proof. apply untouched_api_call, untouched_log. Qed.

Lemma untouched_get_all_records : untouched k (get_all_records env).
Proof. apply untouched_api_call. intros w. reflexivity. Qed.

Lemma untouched_open_sheet : untouched k (open_sheet env).
Proof. apply untouched_api_call, untouched_ret. Qed.

Lemma write_cells_other_row (r c : nat) (vals : list string)
  (g : gmap (nat * nat) string) :
  r <> k.1 -> write_cells r c vals g !! k = g !! k.
Proof.
  intros Hne. revert c g. induction vals as [|v vals IH]; intros c g; [reflexivity|].
  cbn [write_cells]. rewrite IH. apply lookup_insert_ne.
  destruct k as [r' c']. cbn in Hne. congruence.
Qed.

Lemma untouched_update_range r c vals :
  r <> k.1 -> untouched k (update_range env r c vals).
Proof.
  intros Hne. apply untouched_api_call. intros w. cbn.
  by apply write_cells_other_row.
Qed.

Lemma untouched_col_get (col : gmap string nat) key {A} (f : nat -> M A) :
  (forall c, col !! key = Some c -> untouched k (f c)) ->
  untouched k (col_get col key ≫= f).
Proof.
  intros Hf w. rewrite bind_run. unfold col_get.
  destruct (col !! key) as [c|]; [by apply Hf|reflexivity].
Qed.

Lemma untouched_is_eligible username : untouched k (is_eligible env username).
Proof. intros w. rewrite is_eligible_run. reflexivity. Qed.

Lemma untouched_send_dm username message is_retry :
  untouched k (send_dm env username message is_retry).
Proof.
  intros w. rewrite send_dm_run. destruct (dm_fault env (dm_calls w)); reflexivity.
Qed.

Lemma untouched_generate_code username : untouched k (generate_code env username).
Proof. intros w. reflexivity. Qed.

Lemma untouched_random_choice xs : untouched k (random_choice env xs).
Proof. intros w. reflexivity. Qed.

Lemma untouched_now : untouched k (now env).
Proof. intros w. reflexivity. Qed.

Lemma untouched_any_send_dm username message attempts :
  untouched k (Main.any_send_dm env username message attempts).
Proof.
  intros w. destruct (any_send_dm_run env username message attempts w)
    as (b & evs & w' & -> & Hg & _). cbn. by rewrite Hg.
Qed.

Lemma untouched_send_with_retries username message attempts :
  untouched k (Immediate.send_with_retries env username message attempts).
Proof.
  intros w. destruct (send_with_retries_run env username message attempts w)
    as (b & evs & w' & -> & Hg & _). cbn. by rewrite Hg.
Qed.

Lemma untouched_row_get row key : untouched k (Immediate.row_get row key).
Proof. intros w. unfold Immediate.row_get. destruct (row !! key); reflexivity. Qed.

End Untouched.

Ltac untouched_step tac := apply untouched_bind; [tac|intros ?].

(** a write of the row [idx] into one of its three columns misses a cell
    that is off limits *)
Ltac untouched_write Hoff :=
  apply untouched_col_get; intros ? ?; apply untouched_update_cell;
  let E := fresh in
  intros E; destruct Hoff as [Hoff|(? & ? & ?)];
  [apply Hoff; by rewrite <- E | rewrite <- E in *; cbn [snd] in *; congruence].

Lemma Main_process_row_untouched env col idx row k :
  off_limits col idx k -> untouched k (Main.process_row env col idx row).
Proof.
  intros Hoff. unfold Main.process_row. apply untouched_try_except.
  - unfold Main.row_body. apply untouched_col_get. intros c_status _.
    untouched_step ltac:(apply untouched_cell).
    destruct (status_in _ _); [apply untouched_ret|].
    destruct (negb (str_in _ _)); [untouched_write Hoff|].
    destruct (negb (startswith _ _)); [untouched_write Hoff|].
    untouched_step ltac:(apply untouched_is_eligible).
    destruct (negb _).
    + untouched_step ltac:(apply untouched_random_choice).
      untouched_step ltac:(apply untouched_send_dm).
      untouched_write Hoff.
    + untouched_step ltac:(apply untouched_generate_code).
      apply untouched_col_get. intros c_code _.
      untouched_step ltac:(apply untouched_cell).
      untouched_step ltac:(destruct (falsy _); [untouched_write Hoff|apply untouched_ret]).
      untouched_step ltac:(apply untouched_random_choice).
      untouched_step ltac:(apply untouched_any_send_dm).
      apply untouched_col_get. intros c Hc.
      untouched_step ltac:(apply untouched_update_cell;
        let E := fresh in
        intros E; destruct Hoff as [Hoff|(? & ? & ?)];
        [apply Hoff; by rewrite <- E | rewrite <- E in *; cbn [snd] in *; congruence]).
      untouched_write Hoff.
  - intros e. untouched_step ltac:(apply untouched_log). untouched_write Hoff.
Qed.

Lemma Immediate_process_row_untouched env col idx row k :
  off_limits col idx k -> untouched k (Immediate.process_row env col idx row).
Proof.
  intros Hoff. unfold Immediate.process_row. apply untouched_try_except.
  - unfold Immediate.row_body. apply untouched_col_get. intros c_status _.
    untouched_step ltac:(apply untouched_cell).
    destruct (status_in _ _); [apply untouched_ret|].
    untouched_step ltac:(apply untouched_row_get).
    destruct (negb (str_in _ _)); [untouched_write Hoff|].
    destruct (negb (startswith _ _)); [untouched_write Hoff|].
    untouched_step ltac:(apply untouched_is_eligible).
    destruct (negb _).
    + untouched_step ltac:(apply untouched_random_choice).
      untouched_step ltac:(apply untouched_send_dm).
      untouched_write Hoff.
    + untouched_step ltac:(apply untouched_generate_code).
      apply untouched_col_get. intros c_code _.
      untouched_step ltac:(apply untouched_cell).
      untouched_step ltac:(destruct (falsy _); [untouched_write Hoff|apply untouched_ret]).
      untouched_step ltac:(apply untouched_random_choice).
      untouched_step ltac:(apply untouched_send_with_retries).
      apply untouched_col_get. intros c Hc.
      untouched_step ltac:(apply untouched_update_cell;
        let E := fresh in
        intros E; destruct Hoff as [Hoff|(? & ? & ?)];
        [apply Hoff; by rewrite <- E | rewrite <- E in *; cbn [snd] in *; congruence]).
      untouched_write Hoff.
  - intros e. untouched_step ltac:(apply untouched_log). untouched_write Hoff.
Qed.

Lemma Main_process_rows_untouched env col records :
  forall start k,
    (k.1 < start \/ start + length records <= k.1
     \/ (col !! "status" <> Some k.2 /\ col !! "code" <> Some k.2
         /\ col !! "dm_status" <> Some k.2)) ->
    untouched k (Main.process_rows env col start records).
Proof.
  induction records as [|row rest IH]; intros start k Hk.
  - apply untouched_ret.
  - cbn [Main.process_rows length] in *. apply untouched_bind.
    + apply Main_process_row_untouched. unfold off_limits.
      destruct Hk as [?|[?|?]]; [left; lia|left; lia|by right].
    + intros _. apply IH. destruct Hk as [?|[?|?]]; [left; lia|right; left; lia|auto].
Qed.

Lemma Immediate_process_rows_untouched env col records :
  forall start k,
    (k.1 < start \/ start + length records <= k.1
     \/ (col !! "status" <> Some k.2 /\ col !! "code" <> Some k.2
         /\ col !! "dm_status" <> Some k.2)) ->
    untouched k (Immediate.process_rows env col start records).
Proof.
  induction records as [|row rest IH]; intros start k Hk.
  - apply untouched_ret.
  - cbn [Immediate.process_rows length] in *. apply untouched_bind.
    + apply Immediate_process_row_untouched. unfold off_limits.
      destruct Hk as [?|[?|?]]; [left; lia|left; lia|by right].
    + intros _. apply IH. destruct Hk as [?|[?|?]]; [left; lia|right; left; lia|auto].
Qed.

(** X15: the loop over the records writes only into the rows it is given
    and only into the status, code and delivery-status columns.  Whatever
    the collaborators answer and whatever faults occur, a cell in a row
    before the first or after the last record, and a cell in any other
    column (the handle and the preference among them), holds after the
    loop what it held before.  In both scripts. *)
Theorem X15_row_loop_writes_only_its_cells env col start records r c :
  r < start \/ start + length records <= r
  \/ (col !! "status" <> Some c /\ col !! "code" <> Some c
      /\ col !! "dm_status" <> Some c) ->
  untouched (r, c) (Main.process_rows env col start records)
  /\ untouched (r, c) (Immediate.process_rows env col start records).
Proof.
  intros Hk. split.
  - by apply Main_process_rows_untouched.
  - by apply Immediate_process_rows_untouched.
Qed.

Lemma X15_row_loop_writes_only_its_cells_witness :
  untouched (2, 1)
    (Main.process_rows (sample_env no_fault first_dm_fails) sample_col 2
       [sample_record "u/testuser123" MAYBE])
  /\ untouched (2, 1)
       (Immediate.process_rows (sample_env no_fault first_dm_fails) sample_col 2
          [sample_record "u/testuser123" MAYBE]).
Proof.
  apply (X15_row_loop_writes_only_its_cells
           (sample_env no_fault first_dm_fails) sample_col 2
           [sample_record "u/testuser123" MAYBE] 2 1).
  right. right. repeat split; vm_compute; discriminate.
Defined.

(** ** The sheet during the setup *)

Lemma Main_final_indices_untouched k headers items col :
  untouched k (Main.final_indices headers items col).
Proof.
  revert col. induction items as [|[key name] items IH]; intros col.
  - apply untouched_ret.
  - cbn [Main.final_indices]. destruct (index_of name headers); [apply IH|].
    apply untouched_raise.
Qed.

Lemma Immediate_find_existing_untouched k headers items col :
  untouched k (Immediate.find_existing headers items col).
Proof.
  revert col. induction items as [|[norm orig] items IH]; intros col.
  - apply untouched_ret.
  - cbn [Immediate.find_existing].
    destruct (Immediate.dict_get norm Immediate.required_normalized); [|apply IH].
    destruct (index_of orig headers); [apply IH|apply untouched_raise].
Qed.

Lemma Immediate_final_verification_untouched k headers items col :
  untouched k (Immediate.final_verification headers items col).
Proof.
  revert col. induction items as [|[key name] items IH]; intros col.
  - apply untouched_ret.
  - cbn [Immediate.final_verification]. destruct (index_of name headers); [apply IH|].
    apply untouched_raise.
Qed.

Lemma Main_setup_sheet_untouched env k :
  k.1 <> 11 -> untouched k (Main.setup_sheet env).
Proof.
  intros Hk. unfold Main.setup_sheet.
  untouched_step ltac:(apply untouched_row_values).
  destruct (Main.find_existing _ _ _ _) as [col_indices new_columns].
  apply untouched_bind; [|intros ?; apply Main_final_indices_untouched].
  destruct new_columns; [apply untouched_ret|].
  untouched_step ltac:(apply untouched_add_cols).
  untouched_step ltac:(apply untouched_update_range; congruence).
  apply untouched_ret.
Qed.

Lemma Immediate_setup_sheet_untouched env k :
  k.1 <> 11 -> untouched k (Immediate.setup_sheet env).
Proof.
  intros Hk. unfold Immediate.setup_sheet.
  untouched_step ltac:(apply untouched_row_values).
  untouched_step ltac:(apply Immediate_find_existing_untouched).
  apply untouched_bind; [|intros ?; apply Immediate_final_verification_untouched].
  destruct (List.filter _ _); [apply untouched_ret|].
  untouched_step ltac:(apply untouched_add_cols).
  untouched_step ltac:(apply untouched_update_range; congruence).
  apply untouched_ret.
Qed.

Lemma Immediate_setup_or_report_untouched env k :
  k.1 <> 11 -> untouched k (Immediate.setup_or_report env).
Proof.
  intros Hk w. unfold Immediate.setup_or_report.
  pose proof (Immediate_setup_sheet_untouched env k Hk w) as H.
  destruct (Immediate.setup_sheet env w) as [[col|[]] w1]; exact H.
Qed.

(** X8: [setup_sheet] writes nowhere but in row 11, which is the row that
    the label of its update names; and a whole run never changes a cell of
    row 1.  So the header row of the sheet is after a run what it was
    before, also when columns were found missing and their names were
    written.  In both scripts, whatever the collaborators answer. *)
Theorem X8_header_row_is_never_written env r c :
  (r <> 11 ->
   untouched (r, c) (Main.setup_sheet env)
   /\ untouched (r, c) (Immediate.setup_sheet env))
  /\ untouched (1, c) (Main.process_responses env)
  /\ untouched (1, c) (Immediate.process_responses env).
Proof.
  split; [|split].
  - intros Hr. split.
    + by apply Main_setup_sheet_untouched.
    + by apply Immediate_setup_sheet_untouched.
  - unfold Main.process_responses.
    untouched_step ltac:(apply untouched_now).
    untouched_step ltac:(apply untouched_log).
    apply untouched_try_except; [|intros e; apply untouched_log].
    untouched_step ltac:(apply untouched_open_sheet).
    untouched_step ltac:(apply Main_setup_sheet_untouched; discriminate).
    untouched_step ltac:(apply untouched_get_all_records).
    untouched_step ltac:(apply Main_process_rows_untouched; left; cbn; lia).
    untouched_step ltac:(apply untouched_now).
    apply untouched_log.
  - unfold Immediate.process_responses.
    untouched_step ltac:(apply untouched_open_sheet).
    untouched_step ltac:(apply Immediate_setup_or_report_untouched; discriminate).
    match goal with |- untouched _ (match ?x with _ => _ end) => destruct x end;
      [|apply untouched_ret].
    untouched_step ltac:(apply untouched_get_all_records).
    apply Immediate_process_rows_untouched. left. cbn. lia.
Qed.

Lemma X8_header_row_is_never_written_witness :
  (untouched (1, 6) (Main.setup_sheet (sample_env no_fault no_fault))
   /\ untouched (1, 6) (Immediate.setup_sheet (sample_env no_fault no_fault)))
  /\ untouched (1, 6) (Main.process_responses (sample_env no_fault no_fault))
  /\ untouched (1, 6) (Immediate.process_responses (sample_env no_fault no_fault)).
Proof.
  destruct (X8_header_row_is_never_written (sample_env no_fault no_fault) 1 6)
    as (Hsetup & Hmain & Himm).
  split; [apply Hsetup; discriminate|]. split; [exact Hmain|exact Himm].
Defined.

(** ** The Column Resolver on any header row *)

Lemma index_of_lookup x (xs : list string) i : index_of x xs = Some i -> xs !! i = Some x.
Proof.
  revert i. induction xs as [|y xs IH]; intros i; [discriminate|].
  cbn [index_of]. destruct (String.eqb_spec y x) as [->|_].
  - intros [= <-]. reflexivity.
  - destruct (index_of x xs) as [j|]; [|discriminate].
    intros [= <-]. cbn. by apply IH.
Qed.

Lemma index_of_app_l x (xs ys : list string) i :
  index_of x xs = Some i -> index_of x (xs ++ ys) = Some i.
Proof.
  revert i. induction xs as [|y xs IH]; intros i; [discriminate|].
  cbn [index_of app]. destruct (String.eqb y x); [done|].
  destruct (index_of x xs) as [j|]; [|discriminate].
  intros [= <-]. by rewrite (IH j eq_refl).
Qed.

(** distinct names resolve to distinct positions *)
Lemma resolves_columns headers col :
  resolves headers Main.COLUMN_MAP col ->
  exists c_status c_code c_dm, columns col c_status c_code c_dm.
Proof.
  unfold resolves, Main.COLUMN_MAP. intros H.
  repeat match goal with
         | H : Forall _ (_ :: _) |- _ =>
             let Hx := fresh in
             apply Forall_cons in H as [Hx H]; cbn beta in Hx;
             destruct Hx as (? & ? & ?)
         end.
  cbn [fst snd] in *.
  repeat match goal with
         | H : index_of _ _ = Some _ |- _ => apply index_of_lookup in H
         end.
  eexists _, _, _. unfold columns.
  repeat (split; [eassumption|]).
  repeat split; intros E; assert (E' := E); apply Nat.add_cancel_r in E'; subst;
    congruence.
Qed.

Lemma add_cols_answers env n w :
  api_fault env (api_calls w) = None ->
  add_cols env n w = (Ok tt, record (AddCols n) (tick_api w)).
Proof. intros H. unfold add_cols, api_call. rewrite H. reflexivity. Qed.

Lemma update_range_answers env r c vals w :
  api_fault env (api_calls w) = None ->
  update_range env r c vals w
  = (Ok tt, record (UpdateRange r c vals)
              (set_grid (write_cells r c vals (grid w)) (tick_api w))).
Proof. intros H. unfold update_range, api_call. rewrite H. reflexivity. Qed.

Lemma Main_find_existing_new headers items col new :
  (Main.find_existing headers items col new).2
  = (new ++ List.filter (absent headers) (map snd items))%list.
Proof.
  revert col new. induction items as [|[key name] items IH]; intros col new.
  - cbn. by rewrite app_nil_r.
  - cbn [Main.find_existing map snd List.filter]. unfold absent at 1.
    destruct (index_of name headers); rewrite IH; [reflexivity|].
    by rewrite <- app_assoc.
Qed.

Lemma Main_final_indices_resolves headers items w :
  NoDup (map fst items) ->
  Forall (fun kv : string * string => kv.2 ∈ headers) items ->
  forall col,
  exists col',
    Main.final_indices headers items col w = (Ok col', w)
    /\ resolves headers items col'
    /\ forall key, key ∉ map fst items -> col' !! key = col !! key.
Proof.
  intros Hnd Hin. induction Hin as [|[key name] items Hname _ IH]; intros col.
  - exists col. repeat split. constructor.
  - cbn [map fst] in Hnd. apply NoDup_cons in Hnd as [Hkey Hnd].
    cbn [snd] in Hname. destruct (index_of_elem _ _ Hname) as [i Hi].
    cbn [Main.final_indices]. rewrite Hi.
    destruct (IH Hnd (<[key := i + 1]> col)) as (col' & Hrun & Hres & Hframe).
    exists col'. split; [exact Hrun|]. split.
    + constructor; [|exact Hres]. exists i. split; [exact Hi|].
      cbn [fst]. rewrite (Hframe key Hkey). apply lookup_insert_eq.
    + intros key' Hkey'. cbn [map fst] in Hkey'.
      apply not_elem_of_cons in Hkey' as [Hne Hkey'].
      rewrite (Hframe key' Hkey'). by apply lookup_insert_ne.
Qed.

Lemma required_names_found headers :
  Forall (fun kv : string * string => kv.2 ∈ (headers ++ missing_columns headers)%list)
         Main.COLUMN_MAP.
Proof.
  unfold missing_columns.
  assert (Hgen : forall names name, name ∈ names ->
            name ∈ (headers ++ List.filter (absent headers) names)%list).
  { intros names name Hin. apply elem_of_app.
    destruct (index_of name headers) as [i|] eqn:Hi.
    - left. apply index_of_lookup in Hi. by eapply list_elem_of_lookup_2.
    - right. apply list_elem_of_In, filter_In. split; [by apply list_elem_of_In|].
      unfold absent. by rewrite Hi. }
  apply Forall_forall. intros [key name] Hin. cbn [snd]. apply Hgen.
  apply list_elem_of_fmap. by exists (key, name).
Qed.

(** X7: on any header row, when the spreadsheet answers, [setup_sheet] of
    [main.py] returns a complete column map: the names that the trimmed
    header row lacks are created in one batch, in the order of the
    specification, and every key is sent to the 1-based position of its
    name in the header row followed by the created names.  The positions of
    the status, code and delivery-status columns are three different
    ones. *)
Theorem X7_main_setup_always_resolves env w :
  reliable env ->
  exists col w',
    Main.setup_sheet env w = (Ok col, w')
    /\ resolves (header_row w ++ missing_columns (header_row w)) Main.COLUMN_MAP col
    /\ (exists c_status c_code c_dm, columns col c_status c_code c_dm)
    /\ trace w'
       = (trace w ++ creation_events (header_row w) (missing_columns (header_row w)))%list.
Proof.
  intros Hrel. unfold Main.setup_sheet.
  run_with ltac:(rewrite row_values_answers by apply Hrel).
  fold (header_row w).
  pose proof (Main_find_existing_new (header_row w) Main.COLUMN_MAP ∅ []) as Hnew.
  destruct (Main.find_existing (header_row w) Main.COLUMN_MAP ∅ [])
    as [col_indices new_columns].
  cbn [snd app] in Hnew. fold (missing_columns (header_row w)) in Hnew. subst new_columns.
  pose proof (required_names_found (header_row w)) as Hfound.
  assert (Hnd : NoDup (map fst Main.COLUMN_MAP)).
  { apply (bool_decide_unpack _). vm_compute. exact I. }
  rewrite bind_run. unfold creation_events.
  destruct (missing_columns (header_row w)) as [|name names] eqn:Hmiss.
  - unfold ret at 1. cbv beta iota. rewrite app_nil_r in Hfound. rewrite !app_nil_r.
    destruct (Main_final_indices_resolves _ _ (tick_api w) Hnd Hfound col_indices)
      as (col & Hrun & Hres & _).
    exists col, (tick_api w). split; [exact Hrun|]. split; [exact Hres|].
    split; [by eapply resolves_columns|reflexivity].
  - run_with ltac:(rewrite add_cols_answers by apply Hrel).
    run_with ltac:(rewrite update_range_answers by apply Hrel).
    unfold ret at 1. cbv beta iota.
    match goal with |- context [Main.final_indices _ _ _ ?W] =>
      destruct (Main_final_indices_resolves _ _ W Hnd Hfound col_indices)
        as (col & Hrun & Hres & _); exists col, W
    end.
    split; [exact Hrun|]. split; [exact Hres|].
    split; [by eapply resolves_columns|].
    world_proj. rewrite <- app_assoc. reflexivity.
Qed.

Lemma X7_main_setup_always_resolves_witness :
  exists col w',
    Main.setup_sheet (sample_env no_fault no_fault) short_headers = (Ok col, w')
    /\ resolves (header_row short_headers ++ missing_columns (header_row short_headers))
         Main.COLUMN_MAP col
    /\ (exists c_status c_code c_dm, columns col c_status c_code c_dm)
    /\ trace w'
       = (trace short_headers
          ++ creation_events (header_row short_headers)
               (missing_columns (header_row short_headers)))%list.
Proof.
  apply (X7_main_setup_always_resolves (sample_env no_fault no_fault) short_headers).
  intros n. reflexivity.
Defined.

(** X6: when the header row holds every required name in its exact
    spelling, with or without blanks around it, [setup_sheet] of both
    scripts returns for every key the 1-based position of the first header
    with that name, creates no column and writes nothing: one request, the
    read of the header row, is all it makes. *)
Theorem X6_padded_headers_are_resolved env w :
  api_fault env (api_calls w) = None ->
  Forall (fun name => name ∈ header_row w) (map snd Main.COLUMN_MAP) ->
  (exists col,
      Main.setup_sheet env w = (Ok col, tick_api w)
      /\ resolves (header_row w) Main.COLUMN_MAP col)
  /\ (exists col,
      Immediate.setup_sheet env w = (Ok col, tick_api w)
      /\ resolves (header_row w) Immediate.REQUIRED_COLUMNS col).
Proof.
  intros Hapi Hall. split.
  - by apply Main_setup_sheet_resolves.
  - by apply Immediate_setup_sheet_resolves.
Qed.

Lemma X6_padded_headers_are_resolved_witness :
  (exists col,
      Main.setup_sheet (sample_env no_fault no_fault) padded_headers
      = (Ok col, tick_api padded_headers)
      /\ resolves (header_row padded_headers) Main.COLUMN_MAP col)
  /\ (exists col,
      Immediate.setup_sheet (sample_env no_fault no_fault) padded_headers
      = (Ok col, tick_api padded_headers)
      /\ resolves (header_row padded_headers) Immediate.REQUIRED_COLUMNS col).
Proof.
  apply (X6_padded_headers_are_resolved (sample_env no_fault no_fault) padded_headers).
  - reflexivity.
  - apply (bool_decide_unpack _). vm_compute. exact I.
Defined.

(** ** The account name of any handle *)

Lemma split_go_skip sep k c s : split_go sep (S k) (String c s) = split_go sep k s.
Proof. reflexivity. Qed.

(** behind an occurrence of the separator the split has further pieces,
    and the last of them is the last piece of the text behind it *)
Lemma split_go_behind_prefix n :
  forall a b, String.length a <= n ->
    exists p ps,
      split_go "u/" 0 (a ++ "u/" ++ b) = (p, ps)
      /\ ps <> [] /\ List.last ps EmptyString = last_piece (split "u/" b).
Proof.
  induction n as [|n IH]; intros a b Hlen.
  - destruct a; [|cbn in Hlen; lia].
    change (EmptyString ++ "u/" ++ b) with (String "u" (String "/" b)).
    unfold split. cbn. destruct (split_go "u/" 0 b) as [p ps].
    eexists _, _. split; [reflexivity|]. split; [discriminate|reflexivity].
  - destruct a as [|c a].
    + apply (IH EmptyString b). cbn. lia.
    + change (String c a ++ "u/" ++ b) with (String c (a ++ "u/" ++ b)).
      cbn [split_go].
      destruct (startswith (String c (a ++ "u/" ++ b)) "u/") eqn:Hm.
      * cbn [startswith] in Hm. destruct (Ascii.eqb "u" c); [|discriminate].
        destruct a as [|d a].
        { change (EmptyString ++ "u/" ++ b) with (String "u" (String "/" b)) in Hm.
          cbn in Hm. discriminate. }
        change (String d a ++ "u/" ++ b) with (String d (a ++ "u/" ++ b)).
        cbn [String.length Nat.sub]. rewrite split_go_skip.
        destruct (IH a b ltac:(cbn in Hlen; lia)) as (p & ps & -> & Hne & Hlast).
        eexists _, _. split; [reflexivity|]. split; [discriminate|].
        destruct ps; [done|exact Hlast].
      * destruct (IH a b ltac:(cbn in Hlen; lia)) as (p & ps & -> & Hne & Hlast).
        eexists _, _. split; [reflexivity|]. split; [exact Hne|exact Hlast].
Qed.

Lemma last_piece_behind_prefix a b :
  last_piece (split "u/" (a ++ "u/" ++ b)) = last_piece (split "u/" b).
Proof.
  destruct (split_go_behind_prefix (String.length a) a b (le_n _))
    as (p & ps & Hgo & Hne & Hlast).
  unfold split at 1. rewrite Hgo. unfold last_piece at 1.
  destruct ps; [done|exact Hlast].
Qed.

(** X12: the account name that [is_eligible] looks up and [send_dm] writes
    to is the trimmed text behind the last occurrence of the lower-case
    prefix, wherever that occurrence is; a handle in which the lower-case
    prefix does not occur at all is taken whole, trimmed. *)
Theorem X12_name_is_text_behind_last_prefix a b :
  prefix_free b = true ->
  handle_name (a ++ "u/" ++ b) = strip b /\ handle_name b = strip b.
Proof.
  intros Hfree.
  assert (Hb : last_piece (split "u/" b) = b).
  { unfold split. by rewrite (split_go_prefix_free b Hfree). }
  unfold handle_name. split.
  - by rewrite last_piece_behind_prefix, Hb.
  - by rewrite Hb.
Qed.

Lemma X12_name_is_text_behind_last_prefix_witness :
  handle_name ("https://reddit.com/" ++ "u/" ++ "testuser123 ") = strip "testuser123 "
  /\ handle_name "testuser123 " = strip "testuser123 ".
Proof.
  apply (X12_name_is_text_behind_last_prefix "https://reddit.com/" "testuser123 ").
  reflexivity.
Defined.



(** ** The attempts of a row, in both scripts *)

(** X13: in [immediate_response_script.py], in every row that passes the
    checks, the first delivery attempt is sent as an original and every
    later one as a retry of the same message, and between any two
    neighbouring attempts there is exactly one sleep, of 120. *)
Theorem X13_immediate_retries_are_spaced env col idx row w c_status c_code c_dm :
  reliable env -> columns col c_status c_code c_dm ->
  passes_format idx row w c_status ->
  (is_eligible env (username_of row) w).1 = Ok true ->
  exists code humor evs w',
    Immediate.process_row env col idx row w = (Ok tt, w')
    /\ trace w' = (trace w ++ evs)%list
    /\ attempts_marked_as (username_of row) (Immediate.acceptance_msg code humor) evs
    /\ delays_between evs = repeat [120] (length (attempts_of evs) - 1).
Proof.
  intros Hrel Hcol Hfmt Helig.
  destruct (Immediate_eligible_row env col idx row w _ _ _ Hrel Hcol Hfmt Helig)
    as (code & humor & b & dl & w' & Hrun & Hlog & Ht & Hg).
  eexists code, humor, _, w'. split; [exact Hrun|]. split; [exact Ht|]. split.
  - intros i e. rewrite row_events_attempts. intros Hi.
    exact (attempts_marked [Sleep 120] _ _ _ _ _ _ eq_refl Hlog Hi).
  - rewrite row_events_attempts, app_assoc.
    apply (delays_between_row [120] _ _ _ _ _ _ _ Hlog); [|reflexivity].
    by apply silent_code_events.
Qed.

Lemma X13_immediate_retries_are_spaced_witness :
  exists code humor evs w',
    Immediate.process_row (sample_env no_fault first_dm_fails) sample_col 2
      (sample_record "u/testuser123" MAYBE) (sample_world []) = (Ok tt, w')
    /\ trace w' = ([] ++ evs)%list
    /\ attempts_marked_as "u/testuser123" (Immediate.acceptance_msg code humor) evs
    /\ delays_between evs = repeat [120] (length (attempts_of evs) - 1).
Proof.
  apply (X13_immediate_retries_are_spaced (sample_env no_fault first_dm_fails)
           sample_col 2 (sample_record "u/testuser123" MAYBE) (sample_world []) 4 3 5).
  - intros n. reflexivity.
  - exact sample_columns.
  - apply sample_passes_format. vm_compute. reflexivity.
  - vm_compute. reflexivity.
Defined.

(** X14: in [main.py], in every row that passes the checks, the first
    delivery attempt is sent as an original and every later one as a retry
    of the same message, and there is no sleep between any two neighbouring
    attempts: a failed attempt is followed by the next one at once. *)
Theorem X14_main_retries_follow_at_once env col idx row w c_status c_code c_dm :
  reliable env -> columns col c_status c_code c_dm ->
  passes_format idx row w c_status ->
  (is_eligible env (username_of row) w).1 = Ok true ->
  exists code humor evs w',
    Main.process_row env col idx row w = (Ok tt, w')
    /\ trace w' = (trace w ++ evs)%list
    /\ attempts_marked_as (username_of row) (Main.acceptance_msg code humor) evs
    /\ delays_between evs = repeat [] (length (attempts_of evs) - 1).
Proof.
  intros Hrel Hcol Hfmt Helig.
  destruct (Main_eligible_row env col idx row w _ _ _ Hrel Hcol Hfmt Helig)
    as (code & humor & b & dl & w' & Hrun & Hlog & Ht & Hg).
  eexists code, humor, _, w'. split; [exact Hrun|]. split; [exact Ht|]. split.
  - intros i e. rewrite row_events_attempts. intros Hi.
    exact (attempts_marked [] _ _ _ _ _ _ eq_refl Hlog Hi).
  - rewrite row_events_attempts, app_assoc.
    apply (delays_between_row [] _ _ _ _ _ _ _ Hlog); [|reflexivity].
    by apply silent_code_events.
Qed.

Lemma X14_main_retries_follow_at_once_witness :
  exists code humor evs w',
    Main.process_row (sample_env no_fault first_dm_fails) sample_col 2
      (sample_record "u/testuser123" MAYBE) (sample_world []) = (Ok tt, w')
    /\ trace w' = ([] ++ evs)%list
    /\ attempts_marked_as "u/testuser123" (Main.acceptance_msg code humor) evs
    /\ delays_between evs = repeat [] (length (attempts_of evs) - 1).
Proof.
  apply (X14_main_retries_follow_at_once (sample_env no_fault first_dm_fails)
           sample_col 2 (sample_record "u/testuser123" MAYBE) (sample_world []) 4 3 5).
  - intros n. reflexivity.
  - exact sample_columns.
  - apply sample_passes_format. vm_compute. reflexivity.
  - vm_compute. reflexivity.
Defined.

(** ** A header that differs in letter case *)

Lemma index_of_absent x (xs : list string) : x ∉ xs -> index_of x xs = None.
Proof.
  intros Hx. destruct (index_of x xs) as [i|] eqn:Hi; [|reflexivity].
  exfalso. apply Hx. apply index_of_lookup in Hi. by eapply list_elem_of_lookup_2.
Qed.

Lemma Immediate_final_verification_raises headers items col w :
  (exists kv, kv ∈ items /\ kv.2 ∉ headers) ->
  exists msg,
    Immediate.final_verification headers items col w = (Raise (RuntimeError msg), w).
Proof.
  intros (kv & Hin & Hout). revert col.
  induction Hin as [[key name] items|[key name] [key' name'] items _ IH]; intros col;
    cbn [Immediate.final_verification].
  - cbn [snd] in Hout. rewrite (index_of_absent _ _ Hout). eexists. reflexivity.
  - destruct (index_of name' headers); [apply (IH Hout)|]. eexists. reflexivity.
Qed.

Lemma Immediate_setup_sheet_case_variant env w name h :
  reliable env ->
  name ∈ map snd Immediate.REQUIRED_COLUMNS ->
  name ∉ header_row w -> h ∈ header_row w ->
  lower (strip h) = lower (strip name) ->
  exists msg w',
    Immediate.setup_sheet env w = (Raise (RuntimeError msg), w').
Proof.
  intros Hrel Hreq Hout Hh Hcase.
  apply list_elem_of_fmap in Hreq as ([key name'] & -> & Hkv). cbn [snd] in *.
  pose proof (normalize_headers_mem _ _ Hh) as Hmem. rewrite Hcase in Hmem.
  unfold Immediate.setup_sheet.
  run_with ltac:(rewrite row_values_answers by apply Hrel).
  fold (header_row w).
  destruct (Immediate_find_existing_runs (header_row w)
              (Immediate.normalize_headers (header_row w)) ∅ (tick_api w)
              (normalize_headers_values _)) as [col0 Hfind].
  rewrite bind_run, Hfind. cbv beta iota.
  set (new_columns := List.filter _ _).
  assert (Hnew : name' ∉ new_columns).
  { intros [_ Hf]%list_elem_of_In%filter_In. by rewrite Hmem in Hf. }
  assert (Hall : name' ∉ (header_row w ++ new_columns)%list).
  { intros [?|?]%elem_of_app; tauto. }
  rewrite bind_run. destruct new_columns as [|c cs].
  - unfold ret at 1. cbv beta iota.
    destruct (Immediate_final_verification_raises (header_row w)
                Immediate.REQUIRED_COLUMNS col0 (tick_api w)) as [msg Hmsg].
    { exists (key, name'). split; [exact Hkv|exact Hout]. }
    eexists msg, _. exact Hmsg.
  - run_with ltac:(rewrite add_cols_answers by apply Hrel).
    run_with ltac:(rewrite update_range_answers by apply Hrel).
    unfold ret at 1. cbv beta iota.
    match goal with |- context [Immediate.final_verification ?H _ _ ?W] =>
      destruct (Immediate_final_verification_raises H
                  Immediate.REQUIRED_COLUMNS col0 W) as [msg Hmsg]
    end.
    { exists (key, name'). split; [exact Hkv|exact Hall]. }
    eexists msg, _. exact Hmsg.
Qed.

(** X16: when a required name is not in the trimmed header row in its
    exact spelling but a header equal to it up to letter case is,
    [setup_sheet] of [immediate_response_script.py] raises its error about
    a missing critical column, whatever else the header row holds; the run
    logs that the setup failed and returns without reading or processing
    any record. *)
Theorem X16_case_variant_header_always_aborts env w name h :
  reliable env ->
  name ∈ map snd Immediate.REQUIRED_COLUMNS ->
  name ∉ header_row w -> h ∈ header_row w ->
  lower (strip h) = lower (strip name) ->
  exists msg w',
    Immediate.setup_sheet env (tick_api w) = (Raise (RuntimeError msg), w')
    /\ Immediate.process_responses env w
       = (Ok tt, record (Printed ("Sheet setup failed: " ++ msg)) w').
Proof.
  intros Hrel Hreq Hout Hh Hcase.
  destruct (Immediate_setup_sheet_case_variant env (tick_api w) name h
              Hrel Hreq Hout Hh Hcase) as (msg & w' & Hsetup).
  exists msg, w'. split; [exact Hsetup|].
  unfold Immediate.process_responses.
  rewrite bind_run. unfold open_sheet, api_call. rewrite Hrel.
  unfold ret at 1. cbv beta iota.
  rewrite bind_run. unfold Immediate.setup_or_report. rewrite Hsetup.
  reflexivity.
Qed.

Lemma X16_case_variant_header_always_aborts_witness :
  exists msg w',
    Immediate.setup_sheet (sample_env no_fault no_fault) (tick_api varied_headers)
    = (Raise (RuntimeError msg), w')
    /\ Immediate.process_responses (sample_env no_fault no_fault) varied_headers
       = (Ok tt, record (Printed ("Sheet setup failed: " ++ msg)) w').
Proof.
  apply (X16_case_variant_header_always_aborts (sample_env no_fault no_fault)
           varied_headers "Code" "code").
  - intros n. reflexivity.
  - apply (bool_decide_unpack _). vm_compute. exact I.
  - apply (bool_decide_unpack _). vm_compute. exact I.
  - apply (bool_decide_unpack _). vm_compute. exact I.
  - reflexivity.
Defined.

(** ** A second run over settled rows *)

Lemma Main_skipped_row env col idx row w c_status :
  col !! "status" = Some c_status ->
  api_fault env (api_calls w) = None ->
  status_in (grid w !! (idx, c_status)) SKIP_STATUSES = true ->
  Main.process_row env col idx row w = (Ok tt, tick_api w).
Proof.
  intros Hcs Hapi Hskip. unfold Main.process_row, Main.row_body.
  rewrite try_except_run.
  run_with ltac:(rewrite (col_get_some _ _ _ _ Hcs)).
  run_with ltac:(rewrite cell_answers by exact Hapi).
  world_proj. rewrite Hskip. reflexivity.
Qed.

Lemma Immediate_skipped_row env col idx row w c_status :
  col !! "status" = Some c_status ->
  api_fault env (api_calls w) = None ->
  status_in (grid w !! (idx, c_status)) SKIP_STATUSES = true ->
  Immediate.process_row env col idx row w = (Ok tt, tick_api w).
Proof.
  intros Hcs Hapi Hskip. unfold Immediate.process_row, Immediate.row_body.
  rewrite try_except_run.
  run_with ltac:(rewrite (col_get_some _ _ _ _ Hcs)).
  run_with ltac:(rewrite cell_answers by exact Hapi).
  world_proj. rewrite Hskip. reflexivity.
Qed.

(** X17: the loop over the records is a no-op on rows that are settled.
    When the status cell of every row of the records reads Processed,
    Rejected or Opted Out, the loop makes one read per row and nothing
    else: it returns normally, and the sheet and the trace are as before,
    so no message is sent and no code is generated a second time.  In both
    scripts. *)
Theorem X17_settled_rows_are_left_alone env col c_status records :
  reliable env -> col !! "status" = Some c_status ->
  forall start w,
    (forall i, i < length records ->
               status_in (grid w !! (start + i, c_status)) SKIP_STATUSES = true) ->
    Main.process_rows env col start records w
    = (Ok tt, Nat.iter (length records) tick_api w)
    /\ Immediate.process_rows env col start records w
       = (Ok tt, Nat.iter (length records) tick_api w)
    /\ grid (Nat.iter (length records) tick_api w) = grid w
    /\ trace (Nat.iter (length records) tick_api w) = trace w.
Proof.
  intros Hrel Hcs. induction records as [|row rest IH]; intros start w Hall.
  - repeat split.
  - assert (Hhead : status_in (grid w !! (start, c_status)) SKIP_STATUSES = true).
    { rewrite <- (Nat.add_0_r start) at 1. apply Hall. cbn. lia. }
    destruct (IH (S start) (tick_api w)) as (Hmain & Himm & Hg & Ht).
    { intros i Hi. cbn [grid tick_api].
      replace (S start + i) with (start + S i) by lia. apply Hall. cbn. lia. }
    cbn [length]. rewrite Nat.iter_succ_r.
    cbn [Main.process_rows Immediate.process_rows].
    rewrite !bind_run.
    rewrite (Main_skipped_row _ _ _ _ _ _ Hcs (Hrel _) Hhead).
    rewrite (Immediate_skipped_row _ _ _ _ _ _ Hcs (Hrel _) Hhead).
    cbv beta iota. repeat split; assumption.
Qed.

Lemma X17_settled_rows_are_left_alone_witness :
  Main.process_rows (sample_env no_fault no_fault) sample_col 2
    [sample_record "u/testuser123" MAYBE; sample_record "u/newcomer" MAYBE]
    (sample_world [((2, 4), "Processed"); ((3, 4), "Rejected")])
  = (Ok tt, Nat.iter 2 tick_api (sample_world [((2, 4), "Processed"); ((3, 4), "Rejected")]))
  /\ Immediate.process_rows (sample_env no_fault no_fault) sample_col 2
       [sample_record "u/testuser123" MAYBE; sample_record "u/newcomer" MAYBE]
       (sample_world [((2, 4), "Processed"); ((3, 4), "Rejected")])
     = (Ok tt, Nat.iter 2 tick_api (sample_world [((2, 4), "Processed"); ((3, 4), "Rejected")]))
  /\ grid (Nat.iter 2 tick_api (sample_world [((2, 4), "Processed"); ((3, 4), "Rejected")]))
     = grid (sample_world [((2, 4), "Processed"); ((3, 4), "Rejected")])
  /\ trace (Nat.iter 2 tick_api (sample_world [((2, 4), "Processed"); ((3, 4), "Rejected")]))
     = trace (sample_world [((2, 4), "Processed"); ((3, 4), "Rejected")]).
Proof.
  apply (X17_settled_rows_are_left_alone (sample_env no_fault no_fault) sample_col 4
           [sample_record "u/testuser123" MAYBE; sample_record "u/newcomer" MAYBE]).
  - intros n. reflexivity.
  - vm_compute. reflexivity.
  - intros [|[|i]] Hi; [vm_compute; reflexivity..|cbn in Hi; lia].
Defined.
